(** * build.py of ungoogled-chromium-building-scripts

  The script is a sequence of calls into the operating system, into
  [subprocess] and into helpers of the [config] module.  It is embedded
  as an interaction tree without loops ([prog]): a node is a call the
  script makes, its children are indexed by the answer.  A [World]
  answers every call from the calls made so far; running a program
  against a world gives the chronological trace of calls with their
  answers and the result, a value or the uncaught exception.

  What can end the script early is what build.py itself checks or
  raises: the exit status of a child started through [check_call] or
  [check_output], its own [raise] statements, a missing [PATH] in the
  environment, and an exception out of [git_maybe_checkout], whose body
  is in the [config] module; and two failures of the calls themselves:
  [open] of a file to read that is not there, and [input] at the end of
  the input.  The other calls into [os], [shutil], files and helpers
  answer with a value, and a child is always started: an [OSError] out
  of them is outside the model, so the statements below are about the
  calls that were answered, and none says which errors cannot occur.
  The constants of the [config] module and its parser of flag lines are
  parameters of the script.

  Text is [string]; a character stands for a code point below 256. *)

From Stdlib Require Import String Ascii List ZArith Bool Lia DecimalString.
Import ListNotations.

Local Open Scope string_scope.
Local Open Scope list_scope.

Set Implicit Arguments.

(** ** Python text operations used by the script *)

Module Text.

(** [s.startswith(p)] *)
Definition startswith (p s : string) : bool := String.prefix p s.

(** [s.endswith("/")] *)
Fixpoint ends_with_sep (s : string) : bool :=
  match s with
  | EmptyString => false
  | String c EmptyString => Ascii.eqb c "/"
  | String _ rest => ends_with_sep rest
  end.

(** One round of the loop of [posixpath.join]. *)
Definition join2 (path b : string) : string :=
  if startswith "/" b then b
  else if (String.eqb path EmptyString || ends_with_sep path)%bool then path ++ b
  else path ++ "/" ++ b.

(** [os.path.join(a, *p)] *)
Definition os_path_join (a : string) (p : list string) : string :=
  fold_left join2 p a.

(** [sep.join(parts)] *)
Definition join (sep : string) (parts : list string) : string :=
  String.concat sep parts.

(** [str.isspace] on one code point below 256. *)
Definition isspace (c : ascii) : bool :=
  let n := nat_of_ascii c in
  ((9 <=? n) && (n <=? 13) || (28 <=? n) && (n <=? 32)
   || (n =? 133) || (n =? 160))%nat%bool.

Fixpoint lstrip (s : string) : string :=
  match s with
  | EmptyString => EmptyString
  | String c rest => if isspace c then lstrip rest else s
  end.

(** Drops the white space at the end: a character stays when it is not
    white space or when something after it stays. *)
Fixpoint rstrip (s : string) : string :=
  match s with
  | EmptyString => EmptyString
  | String c rest =>
      match rstrip rest with
      | EmptyString => if isspace c then EmptyString else String c EmptyString
      | kept => String c kept
      end
  end.

(** [s.strip()] *)
Definition strip (s : string) : string := rstrip (lstrip s).

(** [str.lower] on one code point below 256. *)
Definition lower_char (c : ascii) : ascii :=
  let n := nat_of_ascii c in
  if ((65 <=? n) && (n <=? 90)
      || (192 <=? n) && (n <=? 222) && negb (n =? 215))%nat%bool
  then ascii_of_nat (n + 32) else c.

(** [s.lower()] *)
Fixpoint lower (s : string) : string :=
  match s with
  | EmptyString => EmptyString
  | String c rest => String (lower_char c) (lower rest)
  end.

(** [s.replace(old, new)] for a non-empty [old]: the occurrences are
    found from the left and do not overlap.  [skip] counts the characters
    of an occurrence that are still to be dropped. *)
Fixpoint replace_from (skip : nat) (old new s : string) : string :=
  match s with
  | EmptyString => EmptyString
  | String c rest =>
      match skip with
      | S n => replace_from n old new rest
      | O =>
          if startswith old s
          then new ++ replace_from (String.length old - 1) old new rest
          else String c (replace_from 0 old new rest)
      end
  end.

Definition replace (s old new : string) : string :=
  replace_from 0 old new s.

(** The line feed. *)
Definition newline : string := String (ascii_of_nat 10) EmptyString.


(** [re.findall] of a pattern [^pat] with [re.MULTILINE], where [pat] is
    plain text without a line feed: one match, the text [pat] itself, for
    every line of [s] that starts with it.  [at_start] says that [s] begins
    at the start of a line. *)
Fixpoint re_findall_line_start (pat : string) (at_start : bool) (s : string)
  : list string :=
  match s with
  | EmptyString => []
  | String c rest =>
      ((if (at_start && String.prefix pat s)%bool then [pat] else [])
       ++ re_findall_line_start pat (Ascii.eqb c (ascii_of_nat 10)) rest)%list
  end.

(** [re.split(r"[ ]+", s)]: the pieces of [s] between its runs of spaces,
    the empty pieces at both ends included.  [in_run] says that a space
    came just before [s]. *)
Fixpoint re_split_spaces_from (in_run : bool) (s : string) : list string :=
  match s with
  | EmptyString => [EmptyString]
  | String c rest =>
      if Ascii.eqb c " "%char then
        if in_run then re_split_spaces_from true rest
        else EmptyString :: re_split_spaces_from true rest
      else
        match re_split_spaces_from false rest with
        | piece :: pieces => String c piece :: pieces
        | [] => [String c EmptyString]
        end
  end.

Definition re_split_spaces (s : string) : list string :=
  re_split_spaces_from false s.

(** [str(n)] for an [int] *)
Definition str_of_int (n : Z) : string :=
  NilZero.string_of_int (Z.to_int n).

End Text.

Arguments Text.strip : simpl never.
Arguments Text.lower : simpl never.
Arguments Text.replace : simpl never.

(** ** Python dictionaries with string keys and values

  A [dict] keeps its items in insertion order and a key at most once;
  assigning to a key that is present keeps its position. *)

Module Dict.

Definition dict := list (string * string).

(** [d.get(k)], [None] when [k] is absent. *)
Fixpoint get (k : string) (d : dict) : option string :=
  match d with
  | [] => None
  | (k', v) :: rest => if String.eqb k k' then Some v else get k rest
  end.

(** [d[k] = v] *)
Fixpoint set (d : dict) (k v : string) : dict :=
  match d with
  | [] => [(k, v)]
  | (k', v') :: rest =>
      if String.eqb k k' then (k', v) :: rest else (k', v') :: set rest k v
  end.

(** [d.update(other)]: the items of [other] are assigned in their order. *)
Definition update (d other : dict) : dict :=
  fold_left (fun acc kv => set acc (fst kv) (snd kv)) other d.

Definition keys (d : dict) : list string := map fst d.

(** The first value found, looking through the layers from the front. *)
Fixpoint first_some (l : list (option string)) : option string :=
  match l with
  | [] => None
  | Some v :: _ => Some v
  | None :: rest => first_some rest
  end.

(** What every Python dictionary satisfies. *)
Definition wf (d : dict) : Prop := NoDup (keys d).

End Dict.

Import Dict.

(** ** Exceptions, calls and programs *)

(** The exceptions that can end the script. *)
Inductive exn : Type :=
| CalledProcessError (returncode : Z) (cmd : list string)
| RuntimeError (msg : string)
| FileNotFoundError (msg : string)
| AttributeError (msg : string)
| KeyError (key : string)
| HelperError (msg : string)
| EOFError.

(** The three entry points of [subprocess] the script uses. *)
Inductive sp_api : Type := sp_run | sp_check_call | sp_check_output.

(** What a finished child process leaves: exit status and captured output. *)
Record completed : Type := Completed { returncode : Z; stdout : string }.

Inductive log_level : Type := DEBUG | INFO | WARNING.

(** The calls the script makes.  The helpers of the [config] module are
    calls too: their bodies are not part of build.py.  A keyword argument
    that a call leaves out is [None]. *)
Inductive call : Type :=
| os_path_exists (p : string)
| os_path_isdir (p : string)
| os_path_abspath (p : string)
| os_getcwd
| os_environ_copy
| os_remove (p : string)
| os_makedirs (p : string)
| shutil_rmtree (p : string)
| input (prompt : string)
| print (s : string)
| logging (level : log_level) (msg : string)
| warnings_warn (msg : string)
| file_readlines (p : string)
| file_write (p content : string)
| subprocess (api : sp_api) (cmd : list string)
    (cwd : option string) (env : option dict)
| distro_linux_distribution
| shell_expand_abs_path (p : string)
| git_maybe_checkout (url dir : string) (branch : option string)
    (reset : option bool)
| filter_list_file (dir name : string) (excludes : option (list string)).

(** The type of the answer to a call.  [git_maybe_checkout] runs git and
    answers with the exception it raised, if any.  [input] answers with
    the line that was typed, or with nothing at the end of the input;
    reading a file answers with its lines, or with nothing when the file
    is not there. *)
Definition answer (c : call) : Type :=
  match c with
  | os_path_exists _ | os_path_isdir _ => bool
  | os_path_abspath _ | os_getcwd | distro_linux_distribution
  | shell_expand_abs_path _ | filter_list_file _ _ _ => string
  | input _ => option string
  | os_environ_copy => dict
  | os_remove _ | os_makedirs _ | shutil_rmtree _ | print _ | logging _ _
  | warnings_warn _ | file_write _ _ => unit
  | file_readlines _ => option (list string)
  | subprocess _ _ _ _ => completed
  | git_maybe_checkout _ _ _ _ => option exn
  end.

(** A program: it returns, raises, or makes a call and goes on with the
    answer. *)
Inductive prog (A : Type) : Type :=
| Ret (a : A)
| Raise (e : exn)
| Vis (c : call) (k : answer c -> prog A).

Arguments Ret {A} a.
Arguments Raise {A} e.
Arguments Vis {A} c k.

Fixpoint bind {A B : Type} (p : prog A) (f : A -> prog B) : prog B :=
  match p with
  | Ret a => f a
  | Raise e => Raise e
  | Vis c k => Vis c (fun x => bind (k x) f)
  end.

Definition trigger (c : call) : prog (answer c) := Vis c Ret.

Declare Scope prog_scope.
Delimit Scope prog_scope with prog.
Bind Scope prog_scope with prog.

Notation "x <- p ;; q" := (bind p (fun x => q))
  (at level 61, p at next level, right associativity) : prog_scope.
Notation "p ;; q" := (bind p (fun _ => q))
  (at level 61, right associativity) : prog_scope.

Local Open Scope prog_scope.

(** [if c: body] without an [else]. *)
Definition when (c : bool) (body : prog unit) : prog unit :=
  if c then body else Ret tt.

(** ** Worlds, traces and runs *)

(** One call with its answer. *)
Inductive entry : Type :=
| Entry (c : call) (x : answer c).

(** A world answers a call from the calls already made, latest first. *)
Definition World : Type := list entry -> forall c : call, answer c.

Inductive result (A : Type) : Type :=
| Ok (a : A)
| Err (e : exn).

Arguments Ok {A} a.
Arguments Err {A} e.

(** The trace, in the order of the calls, and the result of [p] in [w]
    after the calls [past]. *)
Fixpoint run {A : Type} (w : World) (past : list entry) (p : prog A)
  : list entry * result A :=
  match p with
  | Ret a => ([], Ok a)
  | Raise e => ([], Err e)
  | Vis c k =>
      let x := w past c in
      let tr := run w (Entry c x :: past) (k x) in
      (Entry c x :: fst tr, snd tr)
  end.

Definition trace_of {A : Type} (w : World) (p : prog A) : list entry :=
  fst (run w [] p).

Definition result_of {A : Type} (w : World) (p : prog A) : result A :=
  snd (run w [] p).

(** ** [subprocess] *)

(** [subprocess.run(cmd, cwd=.., env=..)]: the exit status is handed to
    the caller. *)
Definition sp_run_ (cmd : list string) (cwd : option string)
  (env : option dict) : prog completed :=
  trigger (subprocess sp_run cmd cwd env).

(** [subprocess.check_call]: a non-zero exit status is raised. *)
Definition check_call (cmd : list string) (cwd : option string)
  (env : option dict) : prog unit :=
  c <- trigger (subprocess sp_check_call cmd cwd env) ;;
  if (returncode c =? 0)%Z then Ret tt
  else Raise (CalledProcessError (returncode c) cmd).

(** [subprocess.check_output]: the same, and the output is returned. *)
Definition check_output (cmd : list string) (cwd : option string)
  (env : option dict) : prog string :=
  c <- trigger (subprocess sp_check_output cmd cwd env) ;;
  if (returncode c =? 0)%Z then Ret (stdout c)
  else Raise (CalledProcessError (returncode c) cmd).

(** The exception a [config] helper answered with is raised. *)
Definition call_helper (r : option exn) : prog unit :=
  match r with
  | None => Ret tt
  | Some e => Raise e
  end.

(** [d[k]] *)
Definition getitem (d : dict) (k : string) : prog string :=
  match Dict.get k d with
  | Some v => Ret v
  | None => Raise (KeyError k)
  end.

(** [input(prompt)]: at the end of the input it raises [EOFError]. *)
Definition read_input (prompt : string) : prog string :=
  reply <- trigger (input prompt) ;;
  match reply with
  | Some line => Ret line
  | None => Raise EOFError
  end.

(** The text of the [FileNotFoundError] that [open] raises for [p]. *)
Definition no_such_file (p : string) : string :=
  ("[Errno 2] No such file or directory: '" ++ p ++ "'")%string.

(** [with open(p, 'r') as f: f.readlines()] *)
Definition open_readlines (p : string) : prog (list string) :=
  lines <- trigger (file_readlines p) ;;
  match lines with
  | Some l => Ret l
  | None => Raise (FileNotFoundError (no_such_file p))
  end.

(** ** The configuration record ([config.Config]) *)

Record Config : Type := mkConfig {
  target_os : string;
  target_cpu : string;
  debug : bool;
  output_base_dir : string;
  cc_wrapper : option string;
  shallow : bool;
  direct_download : bool;
  reset : bool;
  install_build_deps : bool;
  gn_args : dict;
  num_jobs : Z
}.

(** ** Reading traces *)

(** The child process of an entry: how it was started, its command and
    what it left. *)
Definition child (e : entry) : option (sp_api * list string * completed) :=
  match e with
  | Entry c x =>
      match c return answer c -> option (sp_api * list string * completed) with
      | subprocess api cmd _ _ => fun r => Some (api, cmd, r)
      | _ => fun _ => None
      end x
  end.

Definition is_child (e : entry) : bool :=
  match child e with
  | Some _ => true
  | None => false
  end.

(** The child of the entry ended with a non-zero exit status. *)
Definition failed (e : entry) : bool :=
  match child e with
  | Some (_, _, r) => negb (returncode r =? 0)%Z
  | None => false
  end.

(** The exception the entry makes [check_call] and [check_output] raise. *)
Definition child_failure (e : entry) : option exn :=
  match child e with
  | Some (sp_run, _, _) => None
  | Some (_, cmd, r) =>
      if (returncode r =? 0)%Z then None
      else Some (CalledProcessError (returncode r) cmd)
  | None => None
  end.

Fixpoint words_prefix (pre cmd : list string) : bool :=
  match pre, cmd with
  | [], _ => true
  | _ :: _, [] => false
  | p :: pre', c :: cmd' => (String.eqb p c && words_prefix pre' cmd')%bool
  end.

(** The entry is a child whose command starts with the words [pre]. *)
Definition runs (pre : list string) (e : entry) : bool :=
  match child e with
  | Some (_, cmd, _) => words_prefix pre cmd
  | None => false
  end.

(** Calls that can change files: the writing calls of [os] and [shutil],
    files opened for writing, children and [config] helpers. *)
Definition changes_files (e : entry) : bool :=
  match e with
  | Entry (os_remove _) _ | Entry (os_makedirs _) _
  | Entry (shutil_rmtree _) _ | Entry (file_write _ _) _
  | Entry (subprocess _ _ _ _) _ | Entry (git_maybe_checkout _ _ _ _) _
  | Entry (filter_list_file _ _ _) _ => true
  | _ => false
  end.

(** The environment and the working directory that a child was given. *)
Definition env_of (e : entry) : option dict :=
  match e with
  | Entry (subprocess _ _ _ env) _ => env
  | _ => None
  end.

Definition cwd_of (e : entry) : option string :=
  match e with
  | Entry (subprocess _ _ cwd _) _ => cwd
  | _ => None
  end.

(** What a run says of the environment: without [PATH] in the copy of
    [os.environ] the run ends with [KeyError] and has started no child;
    and an environment given to a child is the copy with [PATH] set. *)
Definition env_facts (t : list entry) (r : result unit) : Prop :=
  (forall environ,
     In (Entry os_environ_copy environ) t ->
     Dict.get "PATH" environ = None ->
     r = Err (KeyError "PATH") /\ Forall (fun e => is_child e = false) t)
  /\ (forall e env,
        In e t -> env_of e = Some env ->
        exists d environ path,
          In (Entry os_getcwd d) t
          /\ In (Entry os_environ_copy environ) t
          /\ Dict.get "PATH" environ = Some path
          /\ env = Dict.set environ "PATH"
                     (Text.os_path_join d ["depot_tools"] ++ ":" ++ path)%string).

(** The entry writes a file. *)
Definition writes_file (e : entry) : bool :=
  match e with
  | Entry (file_write _ _) _ => true
  | _ => false
  end.

(** The git commands of [set_revision] that change the checked-out
    revision or the working tree. *)
Definition changes_revision (e : entry) : bool :=
  (runs ["git"; "clean"] e || runs ["git"; "reset"] e
   || runs ["git"; "pull"] e || runs ["git"; "checkout"] e)%bool.

(** The question whether the repository is shallow. *)
Definition asks_shallow (e : entry) : bool :=
  runs ["git"; "rev-parse"; "--is-shallow-repository"] e.

(** The question was answered, and the answer was [true]. *)
Definition told_shallow (e : entry) : bool :=
  (asks_shallow e
   && match child e with
      | Some (_, _, r) =>
          (returncode r =? 0)%Z && String.eqb (Text.strip (stdout r)) "true"
      | None => false
      end)%bool.

(** Asked after the calls [past], the world finds depot_tools under the
    working directory, and finds it to be a directory. *)
Definition depot_tools_usable (w : World) (past : list entry) : bool :=
  let d := w past os_getcwd in
  let p := Text.os_path_join d ["depot_tools"] in
  let past1 := Entry os_getcwd d :: past in
  if w past1 (os_path_exists p)
  then w (Entry (os_path_exists p) true :: past1) (os_path_isdir p)
  else false.

(** The depot_tools directory is missing or is not a directory, whenever
    the script looks for it. *)
Definition depot_tools_missing (w : World) : Prop :=
  forall past, depot_tools_usable w past = false.

(** Every [B] in the trace has an [A] somewhere before it. *)
Definition Before (A B : entry -> Prop) (t : list entry) : Prop :=
  forall t1 b t2, t = t1 ++ b :: t2 -> B b -> Exists A t1.

(** Every [B] in the trace has an entry just before it, and the two are
    related by [R]. *)
Definition RightBefore (R : entry -> entry -> Prop) (B : entry -> Prop)
  (t : list entry) : Prop :=
  forall t1 b t2, t = t1 ++ b :: t2 -> B b ->
    exists t0 a, t1 = t0 ++ [a] /\ R a b.

(** The same for a trace that goes on after the entry [a]. *)
Definition Follows (R : entry -> entry -> Prop) (B : entry -> Prop)
  (a : entry) (t : list entry) : Prop :=
  forall t1 b t2, t = t1 ++ b :: t2 -> B b ->
    exists t0 a', a :: t1 = t0 ++ [a'] /\ R a' b.





(** [git_maybe_checkout] was called for the directory [dir]. *)
Definition checks_out (dir : string) (e : entry) : bool :=
  match e with
  | Entry (git_maybe_checkout _ d _ _) _ => String.eqb dir d
  | _ => false
  end.

(** The exception that [git_maybe_checkout] raised at the entry. *)
Definition raised (e : entry) : option exn :=
  match e with
  | Entry c x =>
      match c return answer c -> option exn with
      | git_maybe_checkout _ _ _ _ => fun r => r
      | _ => fun _ => None
      end x
  end.

(** The arguments of the call of [git_maybe_checkout] at the entry. *)
Definition checkout_of (e : entry)
  : option (string * string * option string * option bool) :=
  match e with
  | Entry (git_maybe_checkout url dir branch reset) _ =>
      Some (url, dir, branch, reset)
  | _ => None
  end.

(** The entry asks the user. *)
Definition asks_user (e : entry) : bool :=
  match e with
  | Entry (input _) _ => true
  | _ => false
  end.

(** The scripts of ungoogled-chromium that [prepare] runs. *)
Definition prune_script : string :=
  "ungoogled-chromium/utils/prune_binaries.py".
Definition patches_script : string :=
  "ungoogled-chromium/utils/patches.py".
Definition domsub_script : string :=
  "ungoogled-chromium/utils/domain_substitution.py".

(** The script that the child of the entry runs, when it is one of the
    three. *)
Definition script_of (e : entry) : option string :=
  match child e with
  | Some (_, c0 :: _, _) =>
      if (String.eqb c0 prune_script || String.eqb c0 patches_script
          || String.eqb c0 domsub_script)%bool
      then Some c0 else None
  | _ => None
  end.

Definition is_script (e : entry) : bool :=
  match script_of e with
  | Some _ => true
  | None => false
  end.

(** The scripts of a trace, in the order in which they were run. *)
Fixpoint scripts (t : list entry) : list string :=
  match t with
  | [] => []
  | e :: t' =>
      match script_of e with
      | Some s => s :: scripts t'
      | None => scripts t'
      end
  end.

(** The list file handed to a script: the third word of the command of
    the pruning script, the word after [-f] of the domain substitution. *)
Definition list_file_of (e : entry) : option string :=
  match child e with
  | Some (_, c0 :: args, _) =>
      if String.eqb c0 prune_script then nth_error args 1
      else if String.eqb c0 domsub_script then
        match nth_error args 3 with
        | Some flag => if String.eqb flag "-f" then nth_error args 4 else None
        | None => None
        end
      else None
  | _ => None
  end.





(** A failing checked child is the last entry, and its exception is the
    result. *)
Definition AbortsOnFailure {A : Type} (t : list entry) (r : result A) : Prop :=
  forall t1 e t2 x, t = t1 ++ e :: t2 -> child_failure e = Some x ->
    t2 = [] /\ r = Err x.

(** After a child started through [subprocess.run] the script goes on,
    whatever the child left. *)
Definition GoesOnAfterRun (t : list entry) : Prop :=
  forall t1 e t2 cmd r, t = t1 ++ e :: t2 ->
    child e = Some (sp_run, cmd, r) -> t2 <> [].


(** The exit status of the first child of the trace that failed. *)
Fixpoint first_failure (t : list entry) : option Z :=
  match t with
  | [] => None
  | e :: t' =>
      if failed e then
        match child e with
        | Some (_, _, r) => Some (returncode r)
        | None => None
        end
      else first_failure t'
  end.

(** ** Programs that fail fast

    Every child started through [check_call] or [check_output] goes on with
    the exception when its exit status is non-zero; a child started through
    [subprocess.run] is one of the [exempt] commands, and whatever it
    leaves, the program goes on with another call. *)

Section FailFast.

Variable exempt : list string -> Prop.

Inductive fail_fast {A : Type} : prog A -> Prop :=
| ff_ret (a : A) : fail_fast (Ret a)
| ff_raise (e : exn) : fail_fast (Raise e)
| ff_checked api cmd cwd env k :
    api <> sp_run ->
    (forall r, returncode r <> 0%Z ->
       k r = Raise (CalledProcessError (returncode r) cmd)) ->
    (forall r, fail_fast (k r)) ->
    fail_fast (Vis (subprocess api cmd cwd env) k)
| ff_unchecked cmd cwd env k :
    exempt cmd ->
    (forall r, exists c k', k r = Vis c k') ->
    (forall r, fail_fast (k r)) ->
    fail_fast (Vis (subprocess sp_run cmd cwd env) k)
| ff_other c k :
    (forall x, child (Entry c x) = None) ->
    (forall x, fail_fast (k x)) ->
    fail_fast (Vis c k).

End FailFast.

(** The two commands whose exit status build.py reads itself: the pruning
    script of [prepare] and [git describe] of [set_revision]. *)
Definition exempt_cmd (cmd : list string) : Prop :=
  words_prefix ["ungoogled-chromium/utils/prune_binaries.py"] cmd = true
  \/ words_prefix ["git"; "describe"] cmd = true.





(** The exit status of the interpreter: the script installs no handler and
    never calls [sys.exit], so it ends with 0, or with 1 on the exception
    that was not caught. *)
Definition exit_status (r : result unit) : Z :=
  match r with
  | Ok _ => 0
  | Err _ => 1
  end.

(** ** Sample worlds and configurations

    A [Scenario] fixes the answers of a world that does not look at the
    past: which paths exist, what the children leave, what the user
    types. *)

Record Scenario : Type := mkScenario {
  sc_exists : string -> bool;
  sc_isdir : string -> bool;
  sc_environ : dict;
  sc_reply : string;
  sc_child : list string -> completed;
  sc_distro : string;
  sc_checkout : string -> option exn
}.

Definition world_of (s : Scenario) : World :=
  fun _ c =>
    match c return answer c with
    | os_path_exists p => sc_exists s p
    | os_path_isdir p => sc_isdir s p
    | os_path_abspath p => Text.os_path_join "/work" [p]
    | os_getcwd => "/work"
    | os_environ_copy => sc_environ s
    | os_remove _ | os_makedirs _ | shutil_rmtree _ | print _ | logging _ _
    | warnings_warn _ | file_write _ _ => tt
    | input _ => Some (sc_reply s)
    | file_readlines p =>
        if sc_exists s p
        then Some ["enable_reporting=false"; "use_sysroot=false"]
        else None
    | subprocess _ cmd _ _ => sc_child s cmd
    | distro_linux_distribution => sc_distro s
    | shell_expand_abs_path p => Text.os_path_join "/work" [p]
    | git_maybe_checkout _ dir _ _ => sc_checkout s dir
    | filter_list_file dir name _ => Text.os_path_join dir [name]
    end.

Module Sample.

(** Stand-ins for the constants of the [config] module. *)
Definition OUTPUT_BASE_DIR : string := "out".
Definition SRC_DIR : string := "src".
Definition GCLIENT_CONFIG : string :=
  "solutions = [{'name': 'src'}]; target_os = [@@TARGET_OS@@]".
Definition chromium_version : string := "91.0.4472.164".
Definition ungoogled_chromium_version : string := "91.0.4472.164-1".
Definition ungoogled_chromium_android_version : string := "91.0.4472.164-1".

Fixpoint split_eq (s : string) : option (string * string) :=
  match s with
  | EmptyString => None
  | String c rest =>
      if Ascii.eqb c "=" then Some (EmptyString, rest)
      else match split_eq rest with
           | Some (k, v) => Some (String c k, v)
           | None => None
           end
  end.

(** A stand-in for [config.parse_gn_flags]: one [key=value] per line. *)
Definition parse_gn_flags (lines : list string) : dict :=
  fold_left
    (fun d l =>
       match split_eq (Text.strip l) with
       | Some (k, v) => Dict.set d k v
       | None => d
       end)
    lines [].

Definition linux : Config :=
  {| target_os := "linux"; target_cpu := "x64"; debug := false;
     output_base_dir := "out"; cc_wrapper := None; shallow := false;
     direct_download := false; reset := false; install_build_deps := false;
     gn_args := [("is_debug", "true"); ("use_vaapi", "true")];
     num_jobs := 8 |}.

Definition android : Config :=
  {| target_os := "android"; target_cpu := "arm64"; debug := false;
     output_base_dir := "out"; cc_wrapper := None; shallow := false;
     direct_download := false; reset := false; install_build_deps := false;
     gn_args := []; num_jobs := 8 |}.

Definition windows : Config :=
  {| target_os := "win"; target_cpu := "x64"; debug := false;
     output_base_dir := "out"; cc_wrapper := None; shallow := false;
     direct_download := false; reset := false; install_build_deps := false;
     gn_args := []; num_jobs := 8 |}.

Definition elsewhere : Config :=
  {| target_os := "linux"; target_cpu := "x64"; debug := false;
     output_base_dir := "/tmp/chromium-out"; cc_wrapper := None;
     shallow := false; direct_download := false; reset := false;
     install_build_deps := false; gn_args := []; num_jobs := 8 |}.

Definition shallow_linux : Config :=
  {| target_os := "linux"; target_cpu := "x64"; debug := false;
     output_base_dir := "out"; cc_wrapper := None; shallow := true;
     direct_download := false; reset := false; install_build_deps := false;
     gn_args := []; num_jobs := 8 |}.

(** Everything is in place and every child succeeds with empty output. *)
Definition all_well : Scenario :=
  {| sc_exists := fun _ => true;
     sc_isdir := fun _ => true;
     sc_environ := [("HOME", "/root"); ("PATH", "/usr/bin:/bin")];
     sc_reply := "y";
     sc_child := fun _ => Completed 0 EmptyString;
     sc_distro := "Ubuntu";
     sc_checkout := fun _ => None |}.

(** The children that [cmd0] starts leave [status] and [out]; the rest is
    as in [s]. *)
Definition with_child (s : Scenario) (cmd0 : string) (status : Z)
  (out : string) : Scenario :=
  {| sc_exists := sc_exists s;
     sc_isdir := sc_isdir s;
     sc_environ := sc_environ s;
     sc_reply := sc_reply s;
     sc_child := fun cmd =>
       match cmd with
       | c :: _ => if String.eqb c cmd0 then Completed status out
                   else sc_child s cmd
       | [] => sc_child s cmd
       end;
     sc_distro := sc_distro s;
     sc_checkout := sc_checkout s |}.

(** The repository is a shallow clone: git says so, and HEAD can be read. *)
Definition shallow_repository : Scenario :=
  {| sc_exists := fun _ => true;
     sc_isdir := fun _ => true;
     sc_environ := [("HOME", "/root"); ("PATH", "/usr/bin:/bin")];
     sc_reply := "y";
     sc_child := fun cmd =>
       if words_prefix ["git"; "rev-parse"; "--is-shallow-repository"] cmd
       then Completed 0 ("true" ++ Text.newline)
       else Completed 0 ("4f1c2d9" ++ Text.newline);
     sc_distro := "Ubuntu";
     sc_checkout := fun _ => None |}.

(** Nothing exists on disk; the rest is as in [s]. *)
Definition on_empty_disk (s : Scenario) : Scenario :=
  {| sc_exists := fun _ => false;
     sc_isdir := fun _ => false;
     sc_environ := sc_environ s;
     sc_reply := sc_reply s;
     sc_child := sc_child s;
     sc_distro := sc_distro s;
     sc_checkout := sc_checkout s |}.

(** The user types [reply]; the rest is as in [s]. *)
Definition with_reply (s : Scenario) (reply : string) : Scenario :=
  {| sc_exists := sc_exists s;
     sc_isdir := sc_isdir s;
     sc_environ := sc_environ s;
     sc_reply := reply;
     sc_child := sc_child s;
     sc_distro := sc_distro s;
     sc_checkout := sc_checkout s |}.


(** Every git child ends with exit status 128. *)
Definition git_fails : Scenario :=
  with_child all_well "git" 128 EmptyString.


(** [PATH] is not set; the rest is as in [s]. *)
Definition without_path (s : Scenario) : Scenario :=
  {| sc_exists := sc_exists s;
     sc_isdir := sc_isdir s;
     sc_environ := [("HOME", "/root")];
     sc_reply := sc_reply s;
     sc_child := sc_child s;
     sc_distro := sc_distro s;
     sc_checkout := sc_checkout s |}.

End Sample.

(** ** build.py *)

Section Script.

Import Text.
Local Open Scope string_scope.

(** The constants and the flag parser that build.py imports from the
    [config] module. *)
Variables OUTPUT_BASE_DIR SRC_DIR GCLIENT_CONFIG : string.
Variables chromium_version ungoogled_chromium_version
  ungoogled_chromium_android_version : string.
Variable parse_gn_flags : list string -> dict.

(** [clean(config)] *)
Definition clean (config : Config) : prog unit :=
  ex <- trigger (os_path_exists (output_base_dir config)) ;;
  if ex then
    a <- trigger (shell_expand_abs_path (output_base_dir config)) ;;
    b <- trigger (shell_expand_abs_path OUTPUT_BASE_DIR) ;;
    let rm := check_call ["rm"; "-rf"; output_base_dir config] None None in
    if negb (String.eqb a b) then
      p <- trigger (os_path_abspath (output_base_dir config)) ;;
      reply <- read_input (
        ("WARNING: you are about to remove an output directory which is different from the default location. "
         ++ "Are you sure you want ot remove " ++ p ++ "? [y/n]: ")) ;;
      if negb (String.eqb reply "y") then Ret tt else rm
    else rm
  else Ret tt.

(** [init(config)] *)
Definition init (config : Config) : prog unit :=
  let cwd := "depot_tools" in
  trigger (print "Cloning depot_tools...") ;;
  ex <- trigger (os_path_exists cwd) ;;
  when ex (trigger (shutil_rmtree cwd)) ;;
  r <- trigger (git_maybe_checkout
         "https://chromium.googlesource.com/chromium/tools/depot_tools.git"
         cwd None None) ;;
  call_helper r ;;
  let clone_cmd :=
    (["git"; "clone"]
     ++ (if shallow config then ["--depth"; "1"; "--no-tags"] else []))%list in
  trigger (print "Checking out chromium src...") ;;
  ex <- trigger (os_path_exists SRC_DIR) ;;
  when ex (
    p <- trigger (os_path_abspath SRC_DIR) ;;
    trigger (logging WARNING
      ("Init: src folder already exists! Removing " ++ p ++ ".")) ;;
    trigger (shutil_rmtree SRC_DIR)) ;;
  check_call
    (clone_cmd ++ ["https://chromium.googlesource.com/chromium/src.git";
                   "-b"; chromium_version])%list
    None None.

(** The escape sequences of the log lines of [set_revision]. *)
Definition ESC : string := String (ascii_of_nat 27) EmptyString.
Definition italic_tag : string := ESC ++ "[3mtag: ".
Definition italic_off : string := ESC ++ "[0m".

(** [set_revision(config)] *)
Definition set_revision (config : Config) : prog string :=
  let cwd := Some SRC_DIR in
  out <- check_output ["git"; "rev-parse"; "HEAD"] cwd None ;;
  let rev := strip out in
  if shallow config then Ret rev
  else
    out <- check_output ["git"; "rev-parse"; "--is-shallow-repository"]
             cwd None ;;
    let shallow_reply := strip out in
    if String.eqb shallow_reply "true" then
      Raise (RuntimeError "Cannot set revision on a shallow repository!")
    else
      tag <- sp_run_ ["git"; "describe"; "--tags"; "--exact-match"; rev]
               cwd None ;;
      (if (negb (returncode tag =? 0)%Z
           || negb (String.eqb (strip (stdout tag)) chromium_version))%bool
       then
         let msg := "Current chromium commit is at " ++ rev ++ "(" ++ italic_tag in
         let msg := if (returncode tag =? 0)%Z then msg ++ stdout tag else msg in
         let msg := msg ++ italic_off ++ ")." in
         trigger (logging INFO
           (msg ++ ", updating to " ++ italic_tag ++ chromium_version
            ++ italic_off ++ ".")) ;;
         when (reset config) (
           check_call ["git"; "clean"; "-fxd"] cwd None ;;
           check_call ["git"; "reset"; "--hard"] cwd None) ;;
         check_call ["git"; "pull"] cwd None ;;
         check_call ["git"; "checkout"; chromium_version] cwd None
       else
         trigger (logging INFO
           ("Current chromium commit is at " ++ chromium_version
            ++ ", no need to update."))) ;;
      out <- check_output ["git"; "rev-parse"; "HEAD"] cwd None ;;
      Ret (strip out).

(** [list_submodules()]: the index [-1] is the last piece; [re.split]
    gives at least one piece. *)
Definition list_submodules : prog (list string) :=
  out <- check_output ["git"; "ls-files"; "--stage"] None None ;;
  let stages := strip out in
  let submodules_list := re_findall_line_start "160000" true stages in
  trigger (logging DEBUG
             ("Found submodules: " ++ join newline submodules_list)) ;;
  Ret (map (fun submodule =>
              last (re_split_spaces (strip submodule)) EmptyString)
         submodules_list).

(** The pre-flight check shared by [sync] and [build]: the path of
    depot_tools, or [FileNotFoundError]. *)
Definition find_depot_tools : prog string :=
  d <- trigger os_getcwd ;;
  let depot_tools_path := os_path_join d ["depot_tools"] in
  ex <- trigger (os_path_exists depot_tools_path) ;;
  if negb ex then Raise (FileNotFoundError "Cannot find depot_tools!")
  else
    isd <- trigger (os_path_isdir depot_tools_path) ;;
    if negb isd then Raise (FileNotFoundError "Cannot find depot_tools!")
    else Ret depot_tools_path.

(** The environment of the children: a copy of [os.environ] whose [PATH]
    starts with depot_tools. *)
Definition env_with_depot_tools (depot_tools_path : string) : prog dict :=
  _env <- trigger os_environ_copy ;;
  path <- getitem _env "PATH" ;;
  Ret (Dict.set _env "PATH" (depot_tools_path ++ ":" ++ path)).

(** The text written to [.gclient]. *)
Definition gclient_text (config : Config) : string :=
  replace GCLIENT_CONFIG "@@TARGET_OS@@" ("'" ++ target_os config ++ "'").

(** [sync(config)] *)
Definition sync (config : Config) : prog unit :=
  depot_tools_path <- find_depot_tools ;;
  _env <- env_with_depot_tools depot_tools_path ;;
  chromium_ref <- set_revision config ;;
  trigger (file_write ".gclient" (gclient_text config)) ;;
  let extra_args :=
    ((if reset config
      then ["--revision"; ("src@" ++ chromium_ref)%string; "--force"; "--upstream"; "--reset"]
      else [])
     ++ (if shallow config then ["--shallow"]
         else ["--with_tags"; "--with_branch_heads"]))%list in
  check_call (["gclient"; "sync"; "--nohooks"] ++ extra_args)%list
    None (Some _env) ;;
  check_call ["gclient"; "runhooks"] None (Some _env) ;;
  when (install_build_deps config) (
    let script :=
      if String.eqb (target_os config) "android"
      then "install-build-deps-android.sh" else "install-build-deps.sh" in
    d <- trigger distro_linux_distribution ;;
    let distro_name := lower d in
    if (String.eqb distro_name "debian" || String.eqb distro_name "ubuntu")%bool
    then
      trigger (warnings_warn
        "Note: installing dependencies requires root privilege!") ;;
      check_call ["sudo"; os_path_join SRC_DIR ["build"; script]] None None
    else
      trigger (warnings_warn
        "Installing dependencies only works on Debian based systems, skipping.")).

(** [prepare(config)] *)
Definition prepare (config : Config) : prog unit :=
  r <- trigger (git_maybe_checkout
         "https://github.com/Eloston/ungoogled-chromium.git"
         "ungoogled-chromium" (Some ungoogled_chromium_version)
         (Some true)) ;;
  call_helper r ;;
  when (String.eqb (target_os config) "android") (
    r <- trigger (git_maybe_checkout
           "https://github.com/ungoogled-software/ungoogled-chromium-android.git"
           "ungoogled-chromium-android"
           (Some ungoogled_chromium_android_version) (Some true)) ;;
    call_helper r ;;
    check_call
      ["patch"; "-p1"; "--ignore-whitespace"; "-i";
       os_path_join "ungoogled-chromium-android"
         ["patches"; "Other"; "ungoogled-main-repo-fix.patch"];
       "--no-backup-if-mismatch"]
      None None) ;;
  let domain_substitution_cache_file := "domsubcache.tar.gz" in
  ex <- trigger (os_path_exists domain_substitution_cache_file) ;;
  when ex (trigger (os_remove domain_substitution_cache_file)) ;;
  let uc_dir := "ungoogled-chromium" in
  let utils_dir := os_path_join uc_dir ["utils"] in
  pruning <- trigger (filter_list_file uc_dir "pruning.list"
                        (Some ["buildtools/linux64/gn"])) ;;
  sp_run_ [os_path_join utils_dir ["prune_binaries.py"]; SRC_DIR; pruning]
    None None ;;
  check_call
    [os_path_join utils_dir ["patches.py"];
     "apply"; "src"; os_path_join uc_dir ["patches"]]
    None None ;;
  domsub <- trigger (filter_list_file uc_dir "domain_substitution.list" None) ;;
  check_call
    [os_path_join utils_dir ["domain_substitution.py"];
     "apply"; "-r"; os_path_join uc_dir ["domain_regex.list"];
     "-f"; domsub; "-c"; domain_substitution_cache_file; "src"]
    None None ;;
  when (String.eqb (target_os config) "android") (
    ex <- trigger (os_path_exists domain_substitution_cache_file) ;;
    when ex (trigger (os_remove domain_substitution_cache_file)) ;;
    let uca_dir := "ungoogled-chromium-android" in
    pruning <- trigger (filter_list_file uca_dir "pruning_2.list" None) ;;
    sp_run_ [os_path_join utils_dir ["prune_binaries.py"]; "src"; pruning]
      None None ;;
    check_call
      [os_path_join utils_dir ["patches.py"];
       "apply"; "src"; os_path_join uca_dir ["patches"]]
      None None ;;
    domsub <- trigger (filter_list_file uca_dir "domain_sub_2.list" None) ;;
    check_call
      [os_path_join utils_dir ["domain_substitution.py"];
       "apply"; "-r"; os_path_join uc_dir ["domain_regex.list"];
       "-f"; domsub; "-c"; domain_substitution_cache_file; "src"]
      None None).

(** The double quote inside the values of quoted GN flags. *)
Definition dquote : string := String (ascii_of_nat 34) EmptyString.

(** The layers of GN arguments that [build] puts on the flags of the
    file, in the order of the source. *)
Definition common_flags (config : Config) : dict :=
  [("is_component_build", "false");
   ("is_unsafe_developer_build", "false");
   ("proprietary_codecs", "true");
   ("ffmpeg_branding", dquote ++ "Chrome" ++ dquote);
   ("use_gnome_keyring", "false");
   ("exclude_unwind_tables", "false");
   ("target_os", dquote ++ target_os config ++ dquote);
   ("target_cpu", dquote ++ target_cpu config ++ dquote)].

Definition debug_flags (config : Config) : dict :=
  if debug config then
    [("is_debug", "true");
     ("is_unsafe_developer_build", "true");
     ("is_official_build", "false");
     ("symbol_level", "1");
     ("blink_symbol_level", "1")]
  else
    [("is_debug", "false");
     ("is_unsafe_developer_build", "false");
     ("is_official_build", "true");
     ("symbol_level", "0");
     ("blink_symbol_level", "0")].

Definition cc_wrapper_flags (config : Config) : dict :=
  match cc_wrapper config with
  | Some w => [("cc_wrapper", dquote ++ w ++ dquote)]
  | None => []
  end.

(** The GN arguments of [build], from the flags parsed from the file. *)
Definition build_gn_args (config : Config) (file_flags : dict) : dict :=
  let gn_args_ := file_flags in
  let gn_args_ := Dict.update gn_args_ (common_flags config) in
  let gn_args_ := Dict.update gn_args_ (debug_flags config) in
  let gn_args_ :=
    match cc_wrapper config with
    | Some _ => Dict.update gn_args_ (cc_wrapper_flags config)
    | None => gn_args_
    end in
  Dict.update gn_args_ (gn_args config).

(** [gn_args_str]: every item as [k=v] followed by the delimiter. *)
Definition assemble_gn_args (delimiter : string) (items : dict) : string :=
  fold_left
    (fun acc kv => acc ++ join "=" [fst kv; snd kv] ++ delimiter)
    items EmptyString.

(** The first local variables of [build]: where the build goes. *)
Definition release_channel (config : Config) : string :=
  if negb (debug config) then "Release" else "Debug".

Definition output_subfolder (config : Config) : string :=
  release_channel config ++ "_" ++ target_os config ++ "_"
  ++ target_cpu config.

Definition output_path (config : Config) : string :=
  os_path_join (output_base_dir config) [output_subfolder config].

Definition output_src_path (config : Config) : string :=
  os_path_join SRC_DIR [output_base_dir config; output_subfolder config].

(** [build(config)] *)
Definition build (config : Config) : prog unit :=
  let output_path := output_path config in
  let output_src_path := output_src_path config in
  ex <- trigger (os_path_exists output_src_path) ;;
  when ex (
    isd <- trigger (os_path_isdir output_src_path) ;;
    when (negb isd) (trigger (os_remove output_src_path))) ;;
  trigger (os_makedirs output_src_path) ;;
  flags <- open_readlines
             (os_path_join "ungoogled-chromium" ["flags.gn"]) ;;
  let gn_args_ := build_gn_args config (parse_gn_flags flags) in
  let delimiter := if direct_download config then " " else newline in
  let gn_args_str := assemble_gn_args delimiter gn_args_ in
  depot_tools_path <- find_depot_tools ;;
  _env <- env_with_depot_tools depot_tools_path ;;
  (if direct_download config then
     check_call
       [os_path_join SRC_DIR ["tools"; "gn"; "bootstrap"; "bootstrap.py"];
        "--gn-gen-args='" ++ gn_args_str ++ "'"]
       None None
   else
     trigger (file_write (os_path_join output_src_path ["args.gn"])
                gn_args_str) ;;
     check_call ["gn"; "gen"; output_path; "--fail-on-unused-args"]
       (Some SRC_DIR) (Some _env)) ;;
  targets <-
    (if String.eqb (target_os config) "linux"
     then Ret ["chrome"; "chrome_sandbox"; "chromedriver"]
     else if String.eqb (target_os config) "android"
     then Ret ["chrome_modern_public_bundle"]
     else Raise (AttributeError "Target OS not supported")) ;;
  check_call
    (["autoninja"; "-j"; str_of_int (num_jobs config); "-C"; output_path]
     ++ targets)%list
    (Some SRC_DIR) (Some _env).

(** The project generator of [build]: [gn gen] on the output directory, or
    the bootstrap script for a direct download. *)
Definition generator (config : Config) (e : entry) : Prop :=
  match child e with
  | Some (_, cmd, _) =>
      cmd = ["gn"; "gen"; output_path config; "--fail-on-unused-args"]
      \/ exists args,
           cmd = [os_path_join SRC_DIR
                    ["tools"; "gn"; "bootstrap"; "bootstrap.py"]; args]
  | None => False
  end.

(** The dispatch at the end of the script, on [args.command]. *)
Definition main (command : string) (config : Config) : prog unit :=
  if String.eqb command "init" then init config
  else if String.eqb command "sync" then sync config
  else if String.eqb command "prepare" then prepare config
  else if String.eqb command "build" then build config
  else if String.eqb command "clean" then clean config
  else Ret tt.


(** * Proofs *)

Local Open Scope list_scope.

(** ** Dictionaries *)

Lemma dict_get_set k k' v d :
  Dict.get k (Dict.set d k' v)
  = if String.eqb k k' then Some v else Dict.get k d.
Proof.
  induction d as [|[k0 v0] d IH]; simpl.
  - reflexivity.
  - destruct (String.eqb k' k0) eqn:E0; simpl.
    + apply String.eqb_eq in E0. subst k0.
      destruct (String.eqb k k'); reflexivity.
    + rewrite IH. destruct (String.eqb k k0) eqn:E1; [|reflexivity].
      apply String.eqb_eq in E1. subst k0.
      rewrite String.eqb_sym, E0. reflexivity.
Qed.

Lemma dict_get_app k (d1 d2 : dict) :
  Dict.get k (d1 ++ d2)%list
  = match Dict.get k d1 with Some v => Some v | None => Dict.get k d2 end.
Proof.
  induction d1 as [|[k0 v0] d1 IH]; simpl; [reflexivity|].
  destruct (String.eqb k k0); [reflexivity | exact IH].
Qed.

(** After [d.update(u)] a key has the value of its last item in [u], or the
    value it had in [d]. *)
Lemma dict_get_update k u : forall d,
  Dict.get k (Dict.update d u)
  = match Dict.get k (rev u) with Some v => Some v | None => Dict.get k d end.
Proof.
  unfold Dict.update.
  induction u as [|[k0 v0] u IH]; intros d; simpl.
  - reflexivity.
  - rewrite IH, dict_get_app, dict_get_set. simpl.
    destruct (Dict.get k (rev u)); [reflexivity|].
    destruct (String.eqb k k0); reflexivity.
Qed.

Lemma dict_get_In k v d : Dict.get k d = Some v -> In (k, v) d.
Proof.
  induction d as [|[k0 v0] d IH]; simpl; [discriminate|].
  destruct (String.eqb k k0) eqn:E.
  - apply String.eqb_eq in E. intros [= ->]. subst. now left.
  - intros H. right. auto.
Qed.

Lemma dict_In_get k v d : Dict.wf d -> In (k, v) d -> Dict.get k d = Some v.
Proof.
  unfold Dict.wf, Dict.keys.
  induction d as [|[k0 v0] d IH]; simpl; [tauto|].
  intros Hnd [H|H].
  - inversion H; subst. now rewrite String.eqb_refl.
  - inversion Hnd as [|? ? Hnotin Hnd']; subst.
    destruct (String.eqb k k0) eqn:E.
    + apply String.eqb_eq in E. subst k0. exfalso. apply Hnotin.
      change k with (fst (k, v)). now apply in_map.
    + auto.
Qed.

Lemma dict_get_None k d : Dict.get k d = None -> ~ In k (Dict.keys d).
Proof.
  unfold Dict.keys.
  induction d as [|[k0 v0] d IH]; simpl; [tauto|].
  destruct (String.eqb k k0) eqn:E; [discriminate|].
  apply String.eqb_neq in E. intros H [H1|H1]; [congruence | now apply IH].
Qed.

Lemma dict_wf_rev d : Dict.wf d -> Dict.wf (rev d).
Proof.
  unfold Dict.wf, Dict.keys. intros H. rewrite map_rev.
  apply NoDup_rev. exact H.
Qed.

Lemma dict_get_rev k d : Dict.wf d -> Dict.get k (rev d) = Dict.get k d.
Proof.
  intros Hwf.
  destruct (Dict.get k d) as [v|] eqn:E.
  - apply dict_In_get; [now apply dict_wf_rev|].
    apply in_rev. rewrite rev_involutive. now apply dict_get_In.
  - destruct (Dict.get k (rev d)) as [v|] eqn:E'; [|reflexivity].
    exfalso. apply dict_get_In in E'. apply in_rev in E'.
    apply (dict_get_None _ _ E). unfold Dict.keys.
    change k with (fst (k, v)). now apply in_map.
Qed.

Lemma dict_get_update_wf k d u :
  Dict.wf u ->
  Dict.get k (Dict.update d u)
  = match Dict.get k u with Some v => Some v | None => Dict.get k d end.
Proof.
  intros H. rewrite dict_get_update, dict_get_rev by exact H. reflexivity.
Qed.

Ltac distinct_keys :=
  repeat (constructor; [simpl; intuition discriminate|]); constructor.

Lemma wf_common_flags cfg : Dict.wf (common_flags cfg).
Proof. unfold Dict.wf, common_flags. simpl. distinct_keys. Qed.

Lemma wf_debug_flags cfg : Dict.wf (debug_flags cfg).
Proof.
  unfold Dict.wf, debug_flags. destruct (debug cfg); simpl; distinct_keys.
Qed.

Lemma wf_cc_wrapper_flags cfg : Dict.wf (cc_wrapper_flags cfg).
Proof.
  unfold Dict.wf, cc_wrapper_flags.
  destruct (cc_wrapper cfg); simpl; distinct_keys.
Qed.


(** ** Runs *)

Lemma run_bind {A B : Type} (w : World) (p : prog A) (f : A -> prog B) :
  forall past,
  run w past (bind p f) =
  match snd (run w past p) with
  | Ok a =>
      let tr := run w (rev (fst (run w past p)) ++ past) (f a) in
      (fst (run w past p) ++ fst tr, snd tr)
  | Err e => (fst (run w past p), Err e)
  end.
Proof.
  induction p as [a|e|c k IH]; intros past; simpl.
  - destruct (run w past (f a)); reflexivity.
  - reflexivity.
  - rewrite IH.
    destruct (snd (run w (Entry c (w past c) :: past) (k (w past c)))); simpl.
    + rewrite <- app_assoc. reflexivity.
    + reflexivity.
Qed.

Section FailFastFacts.

Variable exempt : list string -> Prop.

Lemma ff_bind {A B : Type} (p : prog A) (f : A -> prog B) :
  fail_fast exempt p -> (forall a, fail_fast exempt (f a)) ->
  fail_fast exempt (bind p f).
Proof.
  intros Hp Hf. induction Hp as [a|e|api cmd cwd env k Hapi Hk _ IH
                                |cmd cwd env k Hex Hgo _ IH|c k Hc _ IH];
    simpl.
  - apply Hf.
  - constructor.
  - apply ff_checked; [exact Hapi| |exact IH].
    intros r Hr. rewrite (Hk r Hr). reflexivity.
  - apply ff_unchecked; [exact Hex| |exact IH].
    intros r. destruct (Hgo r) as [c [k' E]]. rewrite E. simpl.
    eexists. eexists. reflexivity.
  - apply ff_other; [exact Hc|exact IH].
Qed.

Lemma ff_trigger (c : call) :
  (forall x, child (Entry c x) = None) -> fail_fast exempt (trigger c).
Proof. intros H. apply ff_other; [exact H|]. intros x. constructor. Qed.

Lemma ff_check_call cmd cwd env : fail_fast exempt (check_call cmd cwd env).
Proof.
  unfold check_call, trigger. simpl. apply ff_checked.
  - discriminate.
  - intros r Hr. destruct (Z.eqb_spec (returncode r) 0); [contradiction|reflexivity].
  - intros r. destruct (returncode r =? 0)%Z; constructor.
Qed.

Lemma ff_check_output cmd cwd env : fail_fast exempt (check_output cmd cwd env).
Proof.
  unfold check_output, trigger. simpl. apply ff_checked.
  - discriminate.
  - intros r Hr. destruct (Z.eqb_spec (returncode r) 0); [contradiction|reflexivity].
  - intros r. destruct (returncode r =? 0)%Z; constructor.
Qed.

Lemma ff_sp_run {A : Type} cmd cwd env (f : completed -> prog A) :
  exempt cmd ->
  (forall r, exists c k', f r = Vis c k') ->
  (forall r, fail_fast exempt (f r)) ->
  fail_fast exempt (bind (sp_run_ cmd cwd env) f).
Proof.
  intros H Hgo Hf. unfold sp_run_, trigger. simpl.
  apply ff_unchecked; [exact H|exact Hgo|exact Hf].
Qed.

Lemma ff_when (c : bool) (body : prog unit) :
  fail_fast exempt body -> fail_fast exempt (when c body).
Proof. intros H. destruct c; simpl; [exact H|constructor]. Qed.

Lemma ff_call_helper r : fail_fast exempt (call_helper r).
Proof. destruct r; constructor. Qed.

Lemma ff_getitem d k : fail_fast exempt (getitem d k).
Proof. unfold getitem. destruct (Dict.get k d); constructor. Qed.

(** What a program that fails fast does in every world. *)
Lemma fail_fast_run {A : Type} (p : prog A) :
  fail_fast exempt p ->
  forall w past,
    AbortsOnFailure (fst (run w past p)) (snd (run w past p))
    /\ (forall e api cmd r, In e (fst (run w past p)) ->
          child e = Some (api, cmd, r) -> api = sp_run -> exempt cmd)
    /\ GoesOnAfterRun (fst (run w past p)).
Proof.
  intros Hp. induction Hp as [a|e|api cmd cwd env k Hapi Hk _ IH
                             |cmd cwd env k Hex Hgo _ IH|c k Hc _ IH];
    intros w past; simpl.
  - split; [|split].
    + intros [|? ?] ? ? ? H; discriminate H.
    + intros ? ? ? ? [].
    + intros [|? ?] ? ? ? ? H; discriminate H.
  - split; [|split].
    + intros [|? ?] ? ? ? H; discriminate H.
    + intros ? ? ? ? [].
    + intros [|? ?] ? ? ? ? H; discriminate H.
  - set (r := w past (subprocess api cmd cwd env)).
    destruct (IH r w (Entry (subprocess api cmd cwd env) r :: past))
      as [IH1 [IH2 IH3]].
    split; [|split].
    + intros [|e1 t1] e t2 x Heq Hx; simpl in Heq; injection Heq as He Ht.
      * subst e. unfold child_failure in Hx. simpl in Hx.
        destruct api; [contradiction Hapi; reflexivity| |];
          (destruct (Z.eqb_spec (returncode r) 0) as [E|E]; [discriminate|];
           injection Hx as <-;
           rewrite (Hk r E) in Ht |- *; simpl in *; split; [congruence|reflexivity]).
      * eapply IH1; eauto.
    + intros e api' cmd' r' [He|He] Hc Hrun.
      * subst e. simpl in Hc. injection Hc as -> _ _. contradiction.
      * eapply IH2; eauto.
    + intros [|e1 t1] e t2 cmd' r' Heq Hc; simpl in Heq;
        injection Heq as He Ht.
      * subst e. simpl in Hc. injection Hc as -> _ _. contradiction.
      * eapply IH3; eauto.
  - set (r := w past (subprocess sp_run cmd cwd env)).
    destruct (IH r w (Entry (subprocess sp_run cmd cwd env) r :: past))
      as [IH1 [IH2 IH3]].
    split; [|split].
    + intros [|e1 t1] e t2 x Heq Hx; simpl in Heq; injection Heq as He Ht.
      * subst e. discriminate Hx.
      * eapply IH1; eauto.
    + intros e api' cmd' r' [He|He] Hc Hrun.
      * subst e. simpl in Hc. injection Hc as _ <- _. exact Hex.
      * eapply IH2; eauto.
    + intros [|e1 t1] e t2 cmd' r' Heq Hc; simpl in Heq;
        injection Heq as He Ht.
      * subst t2. destruct (Hgo r) as [c [k' E]]. rewrite E. simpl.
        discriminate.
      * eapply IH3; eauto.
  - set (x := w past c).
    destruct (IH x w (Entry c x :: past)) as [IH1 [IH2 IH3]].
    split; [|split].
    + intros [|e1 t1] e t2 y Heq Hy; simpl in Heq; injection Heq as He Ht.
      * subst e. unfold child_failure in Hy. rewrite Hc in Hy. discriminate.
      * eapply IH1; eauto.
    + intros e api' cmd' r' [He|He] Hc' Hrun.
      * subst e. rewrite Hc in Hc'. discriminate.
      * eapply IH2; eauto.
    + intros [|e1 t1] e t2 cmd' r' Heq Hc'; simpl in Heq;
        injection Heq as He Ht.
      * subst e. rewrite Hc in Hc'. discriminate.
      * eapply IH3; eauto.
Qed.

End FailFastFacts.

(** ** Every command of the script fails fast *)

Ltac exempt_here :=
  first [left; reflexivity | right; reflexivity].

(** Whatever the child left, the next step is a call. *)
Ltac goes_on :=
  repeat match goal with
         | |- context [if ?b then _ else _] => destruct b
         end;
  eexists; eexists; reflexivity.

Ltac ff_with known :=
  repeat first
    [ known
    | apply ff_ret
    | apply ff_raise
    | apply ff_check_call
    | apply ff_check_output
    | apply ff_call_helper
    | apply ff_getitem
    | apply ff_sp_run; [exempt_here | intros; goes_on | intros]
    | match goal with
      | |- fail_fast _ (trigger ?c) =>
          apply (ff_trigger exempt_cmd c); intros; reflexivity
      end
    | apply ff_when
    | apply ff_bind; [|intros]
    | match goal with
      | |- fail_fast _ (if ?b then _ else _) => destruct b
      | |- fail_fast _ (match ?o with Some _ => _ | None => _ end) =>
          destruct o
      end ].

Ltac ff := ff_with fail.

Lemma ff_clean cfg : fail_fast exempt_cmd (clean cfg).
Proof. unfold clean, read_input. ff. Qed.

Lemma ff_init cfg : fail_fast exempt_cmd (init cfg).
Proof. unfold init. ff. Qed.

Lemma ff_set_revision cfg : fail_fast exempt_cmd (set_revision cfg).
Proof. unfold set_revision. ff. Qed.

Lemma ff_find_depot_tools : fail_fast exempt_cmd find_depot_tools.
Proof. unfold find_depot_tools. ff. Qed.

Lemma ff_env_with_depot_tools p :
  fail_fast exempt_cmd (env_with_depot_tools p).
Proof. unfold env_with_depot_tools. ff. Qed.

Ltac ff_steps :=
  ff_with ltac:(first [ apply ff_find_depot_tools
                      | apply ff_env_with_depot_tools
                      | apply ff_set_revision ]).

Lemma ff_sync cfg : fail_fast exempt_cmd (sync cfg).
Proof. unfold sync. ff_steps. Qed.

Lemma ff_prepare cfg : fail_fast exempt_cmd (prepare cfg).
Proof. unfold prepare. ff. Qed.

Lemma ff_build cfg : fail_fast exempt_cmd (build cfg).
Proof. unfold build, open_readlines. ff_steps. Qed.

Lemma ff_main command cfg : fail_fast exempt_cmd (main command cfg).
Proof.
  unfold main.
  repeat match goal with
         | |- fail_fast _ (if ?b then _ else _) => destruct b
         end;
    auto using ff_init, ff_sync, ff_prepare, ff_build, ff_clean, ff_ret.
Qed.
(** ** Failing children end the script *)

Lemma child_failure_inv e x :
  child_failure e = Some x ->
  exists api cmd r,
    child e = Some (api, cmd, r)
    /\ x = CalledProcessError (returncode r) cmd
    /\ returncode r <> 0%Z.
Proof.
  unfold child_failure. destruct (child e) as [[[api cmd] r]|]; [|discriminate].
  intros H. exists api, cmd, r.
  destruct api; [discriminate| |];
    (destruct (Z.eqb_spec (returncode r) 0); [discriminate|];
     injection H as <-; auto).
Qed.

Lemma aborts_first {A : Type} (t1 t2 : list entry) e x (r : result A) :
  AbortsOnFailure (t1 ++ e :: t2) r ->
  child_failure e = Some x ->
  Forall (fun e' => child_failure e' = None) t1.
Proof.
  intros Hab He. apply Forall_forall. intros e' Hin.
  destruct (child_failure e') as [x'|] eqn:E'; [|reflexivity].
  exfalso. apply in_split in Hin. destruct Hin as [l1 [l2 ->]].
  rewrite <- app_assoc in Hab. simpl in Hab.
  destruct (Hab l1 e' (l2 ++ e :: t2) x' eq_refl E') as [Hnil _].
  destruct l2; discriminate Hnil.
Qed.

(** C2 (as amended).  When a child started through [check_call] or
    [check_output] ends with a non-zero exit status, no checked child failed
    before it, the script ends with the [CalledProcessError] that carries
    this exit status and the command, and the exit status of the script
    itself is 1. *)
Theorem exit_status_on_child_failure command cfg w t1 e t2 x :
  trace_of w (main command cfg) = t1 ++ e :: t2 ->
  child_failure e = Some x ->
  result_of w (main command cfg) = Err x
  /\ (exists api cmd r,
        child e = Some (api, cmd, r)
        /\ x = CalledProcessError (returncode r) cmd
        /\ returncode r <> 0%Z)
  /\ Forall (fun e' => child_failure e' = None) t1
  /\ exit_status (result_of w (main command cfg)) = 1%Z.
Proof.
  intros Ht He.
  destruct (fail_fast_run (ff_main command cfg) w []) as [Hab _].
  fold (trace_of w (main command cfg)) in Hab.
  fold (result_of w (main command cfg)) in Hab.
  destruct (Hab t1 e t2 x Ht He) as [_ Hr].
  split; [exact Hr|]. split; [now apply child_failure_inv|].
  split.
  - rewrite Ht in Hab. eapply aborts_first; eauto.
  - rewrite Hr. reflexivity.
Qed.

(** ** Running the script symbolically *)

(** What is known of the world about depot_tools is stated at the calls
    made so far, before the working directory is asked for. *)
Ltac recall_depot_tools w p c :=
  lazymatch c with
  | os_getcwd =>
      match goal with
      | H : depot_tools_missing w |- _ =>
          generalize (H p); unfold depot_tools_usable; cbv zeta
      | _ => idtac
      end
  | _ => idtac
  end.

(** The earliest answer that the rest of the run depends on becomes a
    variable. *)
Ltac answer_step w :=
  match goal with
  | |- context [run w ?past _] =>
      match past with
      | context [w ?p ?c] =>
          lazymatch p with
          | context [w _ _] => fail
          | _ =>
              let x := fresh "x" in
              recall_depot_tools w p c;
              generalize (w p c); cbn [answer]; intro x;
              try (is_var x;
                   lazymatch type of x with
                   | completed => destruct x as [? ?]
                   | unit => destruct x
                   | _ => idtac
                   end)
          end
      end
  end.

(** The test that the run waits for is decided both ways. *)
Ltac decide_test b :=
  lazymatch b with
  | negb ?c => decide_test c
  | orb ?c _ => decide_test c
  | andb ?c _ => decide_test c
  | _ => destruct b eqn:?
  end.

Ltac waiting_test p :=
  lazymatch p with
  | bind ?q _ => waiting_test q
  | if ?b then _ else _ => decide_test b
  | match ?o with Some _ => _ | None => _ end => destruct o eqn:?
  end.

Ltac case_step w :=
  match goal with
  | |- context [run w _ ?p] => waiting_test p
  end.

Ltac run_cbn :=
  try unfold when, call_helper, getitem, read_input, open_readlines;
  cbn [run bind fst snd trigger check_call check_output sp_run_
       returncode stdout negb orb andb app].

(** A leaf that contradicts what is known of the world. *)
Ltac impossible :=
  solve [ let H := fresh in intro H; discriminate H ].

(** The answers that nothing waited for become variables too. *)
Ltac answer_rest w :=
  repeat match goal with
         | |- context [w ?p ?c] =>
             lazymatch p with
             | context [w _ _] => fail
             | _ => let x := fresh "x" in
                    generalize (w p c); cbn [answer]; intro x;
                    try (is_var x;
                         lazymatch type of x with
                         | completed => destruct x as [? ?]
                         | unit => destruct x
                         | _ => idtac
                         end)
             end
         end.

Ltac exec w :=
  run_cbn;
  repeat (first [impossible | answer_step w | case_step w]; run_cbn);
  answer_rest w.

(** ** Entries and orders in a trace *)

Lemma Before_nil A B : Before A B [].
Proof. intros [|? ?] ? ? H; discriminate H. Qed.

Lemma Before_here (A B : entry -> Prop) a t :
  A a -> ~ B a -> Before A B (a :: t).
Proof.
  intros Ha Hb [|a1 t1] b t2 H HB; simpl in H; injection H as -> ->.
  - contradiction.
  - now left.
Qed.

Lemma Before_skip (A B : entry -> Prop) a t :
  ~ B a -> Before A B t -> Before A B (a :: t).
Proof.
  intros Hb Ht [|a1 t1] b t2 H HB; simpl in H; injection H as -> ->.
  - contradiction.
  - right. eapply Ht; eauto.
Qed.

Lemma Follows_nil R B a : Follows R B a [].
Proof. intros [|? ?] ? ? H; discriminate H. Qed.

Lemma Follows_cons (R : entry -> entry -> Prop) (B : entry -> Prop) a b t :
  (B b -> R a b) -> Follows R B b t -> Follows R B a (b :: t).
Proof.
  intros Hab Ht [|b1 t1] b' t2 H HB; simpl in H; injection H as -> ->.
  - exists [], a. split; [reflexivity|auto].
  - destruct (Ht t1 b' t2 eq_refl HB) as [t0 [a0 [E Ha0]]].
    exists (a :: t0), a0. split; [|exact Ha0].
    simpl. rewrite <- E. reflexivity.
Qed.

Lemma RightBefore_nil R B : RightBefore R B [].
Proof. intros [|? ?] ? ? H; discriminate H. Qed.

Lemma RightBefore_start (R : entry -> entry -> Prop) (B : entry -> Prop) a t :
  ~ B a -> Follows R B a t -> RightBefore R B (a :: t).
Proof.
  intros Hna Ht [|a1 t1] b t2 H HB; simpl in H; injection H as -> ->.
  - contradiction.
  - destruct (Ht t1 b t2 eq_refl HB) as [t0 [a0 [E Ha0]]].
    exists t0, a0. split; [exact E|exact Ha0].
Qed.



Lemma call_eq_dec (a b : call) : {a = b} + {a <> b}.
Proof. repeat decide equality. Qed.

Lemma Entry_inj c (x y : answer c) : Entry c x = Entry c y -> x = y.
Proof.
  intros H. injection H as H.
  exact (Eqdep_dec.inj_pair2_eq_dec call call_eq_dec answer c x y H).
Qed.

(** ** Tactics for explicit traces *)

(** The tests already decided are used in [H]. *)
Ltac rewrite_tests H :=
  repeat match goal with
         | E : _ = true |- _ =>
             tryif constr_eq E H then fail else rewrite E in H
         | E : _ = false |- _ =>
             tryif constr_eq E H then fail else rewrite E in H
         end.

(** One goal for every entry of the explicit trace that [H] ranges over. *)
Ltac each_entry H :=
  cbn [In] in H;
  repeat match type of H with
         | _ \/ _ => destruct H as [H|H]; [subst|]
         | False => destruct H
         end;
  try subst.

Ltac before_steps :=
  repeat first
    [ apply Before_nil
    | apply Before_here; [reflexivity | discriminate]
    | apply Before_skip; [discriminate|] ].

Ltac follows_steps solve_R :=
  repeat first
    [ apply Follows_nil
    | apply Follows_cons;
      [ let HB := fresh in intros HB; first [discriminate HB | solve_R] | ] ].

Ltac right_before_steps solve_R :=
  first [ apply RightBefore_nil
        | apply RightBefore_start; [discriminate | follows_steps solve_R] ].



(** ** [set_revision] *)

(** C4.  With the shallow flag disabled, [set_revision] asks git whether
    the repository is shallow before any git clean, reset, pull or
    checkout: it is the call that follows the successful reading of HEAD.
    When git answers [true], [set_revision] raises [RuntimeError] with its
    message and none of the four commands is run. *)
Theorem set_revision_checks_shallowness cfg w :
  shallow cfg = false ->
  let t := trace_of w (set_revision cfg) in
  Before (fun e => asks_shallow e = true)
         (fun e => changes_revision e = true) t
  /\ (forall e1 rest, t = e1 :: rest -> failed e1 = false ->
        exists e2 rest', rest = e2 :: rest' /\ asks_shallow e2 = true)
  /\ (forall e, In e t -> told_shallow e = true ->
        result_of w (set_revision cfg)
        = Err (RuntimeError "Cannot set revision on a shallow repository!")
        /\ Forall (fun e' => changes_revision e' = false) t).
Proof.
  intros Hs. unfold trace_of, result_of, set_revision. rewrite Hs.
  exec w.
  all: cbv zeta.
  all: split; [before_steps|].
  all: split.
  all: try (intros e1 rest H Hf; injection H as <- <-;
            first [ eexists; eexists; split; reflexivity
                  | cbn in Hf; rewrite_tests Hf; discriminate Hf ]).
  all: intros e Hin Ht; each_entry Hin;
       try (cbn in Ht; rewrite_tests Ht; discriminate Ht).
  all: split; [reflexivity | repeat constructor].
Qed.
(** ** The pre-flight check of [sync] and [build] *)


(** ** [sync] *)

(** [str.replace] on a text with one placeholder and no other [@]. *)






Lemma string_app_assoc (a b c : string) :
  ((a ++ b) ++ c = a ++ (b ++ c))%string.
Proof.
  induction a as [|x a IH]; cbn [append]; [reflexivity|].
  rewrite IH. reflexivity.
Qed.



(** ** [prepare] *)



(** ** [clean] *)

Lemma cons_inj {A : Type} (a b : A) (t u : list A) :
  a :: t = b :: u -> a = b /\ t = u.
Proof. intros H. injection H as -> ->. split; reflexivity. Qed.

(** The head of [H : a :: t = b :: u] goes to [He], the tails stay in [H]. *)
Ltac head_eq H He :=
  apply cons_inj in H; destruct H as [He H].

(** C8.  [clean] first asks whether the output directory exists; when it
    does not, nothing else happens and [clean] returns.  When it exists,
    [clean] expands its path and the default; when the two differ it
    asks the user, naming the absolute path: on the reply [y], and on no
    other reply, exactly [rm -rf] on the directory follows; on any other
    reply, and at the end of the input, nothing follows and no call of
    the run can change a file: [clean] returns, or ends with
    [EOFError]. *)
Theorem clean_asks_before_removing cfg w :
  let t := trace_of w (clean cfg) in
  let r := result_of w (clean cfg) in
  let out := output_base_dir cfg in
  exists ex t',
    t = Entry (os_path_exists out) ex :: t'
    /\ (ex = false -> t' = [] /\ r = Ok tt)
    /\ (ex = true ->
        exists a b t'',
          t' = Entry (shell_expand_abs_path out) a
               :: Entry (shell_expand_abs_path OUTPUT_BASE_DIR) b :: t''
          /\ (a <> b ->
              exists p reply t3,
                t'' = Entry (os_path_abspath out) p
                      :: Entry (input
                                  ("WARNING: you are about to remove an output directory which is different from the default location. "
                                   ++ "Are you sure you want ot remove "
                                   ++ p ++ "? [y/n]: ")) reply
                      :: t3
                /\ (reply = Some "y"%string ->
                      exists c,
                        t3 = [Entry (subprocess sp_check_call
                                       ["rm"; "-rf"; out] None None) c])
                /\ (reply <> Some "y"%string ->
                      t3 = []
                      /\ Forall (fun e => changes_files e = false) t
                      /\ r = match reply with
                             | Some _ => Ok tt
                             | None => Err EOFError
                             end))).
Proof.
  cbv zeta. unfold trace_of, result_of, clean.
  exec w.
  all: eexists; eexists; (split; [reflexivity|]);
       (split;
        [ intros Hex; first [discriminate Hex | split; reflexivity]
        | intros Hex; first [discriminate Hex | idtac] ]).
  all: eexists; eexists; eexists; (split; [reflexivity|]); intros Hab.
  all: try (exfalso; apply Hab; apply String.eqb_eq; assumption).
  all: eexists; eexists; eexists; (split; [reflexivity|]).
  all: split;
       [ intros Hy;
         first [ discriminate Hy
               | eexists; reflexivity
               | injection Hy as ->; rewrite String.eqb_refl in *;
                 discriminate ]
       | intros Hn;
         first [ exfalso; apply Hn; f_equal; apply String.eqb_eq; assumption
               | split; [reflexivity|];
                 split; [repeat constructor | reflexivity] ] ].
Qed.

(** ** [build] *)

Lemma string_length_app (a b : string) :
  String.length (a ++ b) = String.length a + String.length b.
Proof. induction a as [|c a IH]; cbn; [reflexivity|now rewrite IH]. Qed.

(** A joined path is at least as long as its last part. *)
Lemma join2_length p b : String.length b <= String.length (join2 p b).
Proof.
  unfold join2. destruct (startswith "/" b); [lia|].
  destruct (String.eqb p EmptyString || ends_with_sep p)%bool;
    rewrite ?string_length_app; lia.
Qed.

Lemma bootstrap_not_autoninja :
  String.eqb "autoninja"
    (os_path_join SRC_DIR ["tools"; "gn"; "bootstrap"; "bootstrap.py"])
  = false.
Proof.
  apply String.eqb_neq. intros E.
  apply (f_equal String.length) in E.
  unfold os_path_join in E. cbn [fold_left] in E.
  match type of E with
  | _ = String.length (join2 ?p ?b) => pose proof (join2_length p b) as L
  end.
  rewrite <- E in L. cbn in L. lia.
Qed.

Ltac exists_steps tac :=
  repeat first [ apply Exists_cons_hd; solve [tac] | apply Exists_cons_tl ].

(** C9.  For a target OS other than linux and android, [build] always
    ends with an error and never starts autoninja.  When the error is the
    [AttributeError] of the unsupported target OS, the output directory has
    been created and the project generator has run with exit status 0; and
    whenever the generator has run with exit status 0, this is the error. *)
Theorem build_rejects_other_os cfg w :
  target_os cfg <> "linux"%string ->
  target_os cfg <> "android"%string ->
  let t := trace_of w (build cfg) in
  let r := result_of w (build cfg) in
  (exists x, r = Err x)
  /\ Forall (fun e => runs ["autoninja"] e = false) t
  /\ (r = Err (AttributeError "Target OS not supported") ->
        Exists (fun e => e = Entry (os_makedirs (output_src_path cfg)) tt) t
        /\ Exists (fun e => generator cfg e /\ failed e = false) t)
  /\ (forall e, In e t -> generator cfg e -> failed e = false ->
        r = Err (AttributeError "Target OS not supported")).
Proof.
  intros Hl Ha. apply String.eqb_neq in Hl, Ha.
  cbv zeta. unfold trace_of, result_of, build, find_depot_tools,
    env_with_depot_tools.
  rewrite Hl, Ha.
  exec w.
  all: split; [eexists; reflexivity|].
  all: split;
       [repeat (constructor;
                [first [ reflexivity
                       | cbn [runs child words_prefix];
                         rewrite bootstrap_not_autoninja; reflexivity ]|]);
        constructor|].
  all: split.
  all: try (intros Hr; discriminate Hr).
  all: try (intros _; split;
            [ exists_steps reflexivity
            | exists_steps
                ltac:(split;
                      [ cbn; first [left; reflexivity
                                   | right; eexists; reflexivity]
                      | cbn;
                        repeat match goal with
                               | E : (_ =? 0)%Z = _ |- _ => rewrite E
                               end; reflexivity ]) ]).
  all: intros e Hin Hg Hf; each_entry Hin; try contradiction;
       try reflexivity;
       cbn in Hf; rewrite_tests Hf; discriminate Hf.
Qed.

(** ** [init] *)




(** ** The GN arguments of [build] *)

(** The layers of the GN arguments, and what a key gets from them. *)
Lemma build_gn_args_get cfg file :
  Dict.wf (gn_args cfg) ->
  build_gn_args cfg file =
    Dict.update (Dict.update (Dict.update (Dict.update file
      (common_flags cfg)) (debug_flags cfg)) (cc_wrapper_flags cfg))
      (gn_args cfg)
  /\ (forall k,
        Dict.get k (build_gn_args cfg file) =
        Dict.first_some [Dict.get k (gn_args cfg);
                         Dict.get k (cc_wrapper_flags cfg);
                         Dict.get k (debug_flags cfg);
                         Dict.get k (common_flags cfg);
                         Dict.get k file])
  /\ (forall k v, Dict.get k (gn_args cfg) = Some v ->
        Dict.get k (build_gn_args cfg file) = Some v).
Proof.
  intros Hwf.
  assert (Heq : build_gn_args cfg file =
    Dict.update (Dict.update (Dict.update (Dict.update file
      (common_flags cfg)) (debug_flags cfg)) (cc_wrapper_flags cfg))
      (gn_args cfg)).
  { unfold build_gn_args, cc_wrapper_flags.
    destruct (cc_wrapper cfg); reflexivity. }
  assert (Hget : forall k,
        Dict.get k (build_gn_args cfg file) =
        Dict.first_some [Dict.get k (gn_args cfg);
                         Dict.get k (cc_wrapper_flags cfg);
                         Dict.get k (debug_flags cfg);
                         Dict.get k (common_flags cfg);
                         Dict.get k file]).
  { intros k. rewrite Heq.
    rewrite !dict_get_update_wf
      by auto using wf_common_flags, wf_debug_flags, wf_cc_wrapper_flags.
    cbn [Dict.first_some].
    destruct (Dict.get k (gn_args cfg)); [reflexivity|].
    destruct (Dict.get k (cc_wrapper_flags cfg)); [reflexivity|].
    destruct (Dict.get k (debug_flags cfg)); [reflexivity|].
    destruct (Dict.get k (common_flags cfg)); [reflexivity|].
    destruct (Dict.get k file); reflexivity. }
  split; [exact Heq|]. split; [exact Hget|].
  intros k v H. rewrite Hget. cbn [Dict.first_some]. rewrite H. reflexivity.
Qed.

(** C3.  The GN arguments of [build] are the flags parsed from the file
    updated, in this order, with the common flags, the debug or release
    flags, the cc_wrapper flag and the overrides of the command line; the
    value of a key is the one of the latest layer that has it, so that every
    key of the overrides keeps the value the user gave.  These are the
    arguments [build] writes, one [key=value] per line, whenever it writes
    a file. *)
Theorem build_gn_args_layers cfg w :
  Dict.wf (gn_args cfg) ->
  (forall file,
     build_gn_args cfg file =
       Dict.update (Dict.update (Dict.update (Dict.update file
         (common_flags cfg)) (debug_flags cfg)) (cc_wrapper_flags cfg))
         (gn_args cfg)
     /\ (forall k,
           Dict.get k (build_gn_args cfg file) =
           Dict.first_some [Dict.get k (gn_args cfg);
                            Dict.get k (cc_wrapper_flags cfg);
                            Dict.get k (debug_flags cfg);
                            Dict.get k (common_flags cfg);
                            Dict.get k file])
     /\ (forall k v, Dict.get k (gn_args cfg) = Some v ->
           Dict.get k (build_gn_args cfg file) = Some v))
  /\ (forall p s u,
        In (Entry (file_write p s) u) (trace_of w (build cfg)) ->
        exists lines,
          In (Entry (file_readlines
                       (os_path_join "ungoogled-chromium" ["flags.gn"]))
                (Some lines)) (trace_of w (build cfg))
          /\ p = os_path_join (output_src_path cfg) ["args.gn"]
          /\ s = assemble_gn_args newline
                   (build_gn_args cfg (parse_gn_flags lines))).
Proof.
  intros Hwf. split.
  - intros file. exact (build_gn_args_get cfg file Hwf).
  - unfold trace_of, build, find_depot_tools, env_with_depot_tools.
    exec w; intros p0 s0 u0 Hin; each_entry Hin; try discriminate Hin;
      injection Hin as <- <-; eexists; (split; [cbn [In]; tauto|]);
      split; reflexivity.
Qed.

(** * Further properties of the script *)

(** ** The GN arguments as a dictionary *)

Lemma dict_keys_set_present k v d :
  In k (Dict.keys d) -> Dict.keys (Dict.set d k v) = Dict.keys d.
Proof.
  unfold Dict.keys.
  induction d as [|[k0 v0] d IH]; simpl; [tauto|].
  intros Hin. destruct (String.eqb k k0) eqn:E; simpl; [reflexivity|].
  apply String.eqb_neq in E. f_equal. apply IH.
  destruct Hin as [H|H]; [congruence|exact H].
Qed.

Lemma dict_keys_set_absent k v d :
  ~ In k (Dict.keys d) -> Dict.keys (Dict.set d k v) = Dict.keys d ++ [k].
Proof.
  unfold Dict.keys.
  induction d as [|[k0 v0] d IH]; simpl; [reflexivity|].
  intros Hnot. destruct (String.eqb k k0) eqn:E; simpl.
  - apply String.eqb_eq in E. subst k0. tauto.
  - f_equal. apply IH. tauto.
Qed.

Lemma dict_keys_set_grows k v d :
  exists rest, Dict.keys (Dict.set d k v) = Dict.keys d ++ rest.
Proof.
  destruct (in_dec string_dec k (Dict.keys d)) as [H|H].
  - exists []. rewrite (dict_keys_set_present k v d H), app_nil_r. reflexivity.
  - exists [k]. exact (dict_keys_set_absent k v d H).
Qed.

Lemma dict_keys_update_grows u : forall d,
  exists rest, Dict.keys (Dict.update d u) = Dict.keys d ++ rest.
Proof.
  unfold Dict.update.
  induction u as [|[k v] u IH]; intros d; simpl.
  - exists []. rewrite app_nil_r. reflexivity.
  - destruct (IH (Dict.set d k v)) as [r1 E1].
    destruct (dict_keys_set_grows k v d) as [r0 E0].
    exists (r0 ++ r1). rewrite E1, E0, app_assoc. reflexivity.
Qed.

Lemma dict_wf_set k v d : Dict.wf d -> Dict.wf (Dict.set d k v).
Proof.
  unfold Dict.wf. intros H.
  destruct (in_dec string_dec k (Dict.keys d)) as [Hin|Hnot].
  - rewrite (dict_keys_set_present k v d Hin). exact H.
  - rewrite (dict_keys_set_absent k v d Hnot).
    apply NoDup_app; [exact H|repeat constructor; simpl; tauto|].
    intros x Hx [<-|[]]. contradiction.
Qed.

Lemma dict_wf_update u : forall d, Dict.wf d -> Dict.wf (Dict.update d u).
Proof.
  unfold Dict.update.
  induction u as [|[k v] u IH]; intros d H; simpl; [exact H|].
  apply IH. apply dict_wf_set. exact H.
Qed.

Lemma dict_get_rev_None k d :
  Dict.get k d = None -> Dict.get k (rev d) = None.
Proof.
  intros H. destruct (Dict.get k (rev d)) as [v|] eqn:E; [|reflexivity].
  exfalso. apply dict_get_In in E. apply in_rev in E.
  apply (dict_get_None _ _ H). unfold Dict.keys.
  change k with (fst (k, v)). now apply in_map.
Qed.

Lemma dict_get_Some_keys k d :
  In k (Dict.keys d) -> exists v, Dict.get k d = Some v.
Proof.
  unfold Dict.keys.
  induction d as [|[k0 v0] d IH]; simpl; [tauto|].
  intros [H|H].
  - subst k0. rewrite String.eqb_refl. eauto.
  - destruct (String.eqb k k0); eauto.
Qed.

(** X1.  When the flags parsed from the file have every key once, so have
    the GN arguments of [build]: no key is written twice to the flags
    file, whatever the overrides of the user are. *)
Theorem build_gn_args_wf cfg file :
  Dict.wf file -> Dict.wf (build_gn_args cfg file).
Proof.
  intros H. unfold build_gn_args.
  destruct (cc_wrapper cfg); repeat apply dict_wf_update; exact H.
Qed.

(** X2.  The flags of the file keep their places at the front of the GN
    arguments, in the order of the file: the layers that [build] puts on
    them change values in place and add new keys at the end. *)
Theorem build_gn_args_keeps_file_order cfg file :
  exists rest,
    Dict.keys (build_gn_args cfg file) = Dict.keys file ++ rest.
Proof.
  unfold build_gn_args.
  destruct (dict_keys_update_grows (common_flags cfg) file) as [r1 E1].
  destruct (dict_keys_update_grows (debug_flags cfg)
              (Dict.update file (common_flags cfg))) as [r2 E2].
  destruct (cc_wrapper cfg) as [cw|].
  - destruct (dict_keys_update_grows (cc_wrapper_flags cfg)
                (Dict.update (Dict.update file (common_flags cfg))
                   (debug_flags cfg))) as [r3 E3].
    destruct (dict_keys_update_grows (gn_args cfg)
                (Dict.update (Dict.update (Dict.update file
                   (common_flags cfg)) (debug_flags cfg))
                   (cc_wrapper_flags cfg))) as [r4 E4].
    exists (r1 ++ r2 ++ r3 ++ r4).
    rewrite E4, E3, E2, E1, <- !app_assoc. reflexivity.
  - destruct (dict_keys_update_grows (gn_args cfg)
                (Dict.update (Dict.update file (common_flags cfg))
                   (debug_flags cfg))) as [r4 E4].
    exists (r1 ++ r2 ++ r4).
    rewrite E4, E2, E1, <- !app_assoc. reflexivity.
Qed.

(** X3.  A flag that [build] sets itself (a common flag or a debug or
    release flag) and that the user does not override has the value of the
    script, whatever the file says about it. *)
Theorem hard_coded_flags_beat_file cfg file k :
  Dict.get k (gn_args cfg) = None ->
  In k (Dict.keys (common_flags cfg) ++ Dict.keys (debug_flags cfg)) ->
  Dict.get k (build_gn_args cfg file) = Dict.get k (build_gn_args cfg [])
  /\ exists v, Dict.get k (build_gn_args cfg file) = Some v.
Proof.
  intros Hu Hin.
  assert (Hget : forall f,
    Dict.get k (build_gn_args cfg f) =
    match Dict.get k (cc_wrapper_flags cfg) with
    | Some v => Some v
    | None =>
        match Dict.get k (debug_flags cfg) with
        | Some v => Some v
        | None =>
            match Dict.get k (common_flags cfg) with
            | Some v => Some v
            | None => Dict.get k f
            end
        end
    end).
  { intros f.
    replace (build_gn_args cfg f) with
      (Dict.update (Dict.update (Dict.update (Dict.update f
         (common_flags cfg)) (debug_flags cfg)) (cc_wrapper_flags cfg))
         (gn_args cfg))
      by (unfold build_gn_args, cc_wrapper_flags;
          destruct (cc_wrapper cfg); reflexivity).
    rewrite dict_get_update, (dict_get_rev_None _ _ Hu).
    rewrite !dict_get_update_wf
      by auto using wf_common_flags, wf_debug_flags, wf_cc_wrapper_flags.
    reflexivity. }
  rewrite !Hget.
  destruct (Dict.get k (cc_wrapper_flags cfg)) as [v|]; [eauto|].
  destruct (Dict.get k (debug_flags cfg)) as [v|] eqn:Ed; [eauto|].
  destruct (Dict.get k (common_flags cfg)) as [v|] eqn:Ec; [eauto|].
  exfalso. apply in_app_or in Hin. destruct Hin as [H|H].
  - apply (dict_get_None _ _ Ec H).
  - apply (dict_get_None _ _ Ed H).
Qed.

Lemma string_app_nil_r (s : string) : (s ++ EmptyString)%string = s.
Proof. induction s as [|c s IH]; cbn; [reflexivity|now rewrite IH]. Qed.

Lemma concat_empty_cons (x : string) (l : list string) :
  String.concat EmptyString (x :: l)
  = (x ++ String.concat EmptyString l)%string.
Proof.
  destruct l as [|y l]; cbn [String.concat].
  - rewrite string_app_nil_r. reflexivity.
  - reflexivity.
Qed.

Lemma assemble_from delimiter items : forall acc,
  fold_left
    (fun acc kv => (acc ++ join "=" [fst kv; snd kv] ++ delimiter)%string)
    items acc
  = (acc ++ String.concat EmptyString
              (map (fun kv => (fst kv ++ "=" ++ snd kv ++ delimiter)%string)
                 items))%string.
Proof.
  induction items as [|kv items IH]; intros acc; cbn [fold_left map].
  - cbn [String.concat]. rewrite string_app_nil_r. reflexivity.
  - rewrite IH, concat_empty_cons. unfold join. cbn [String.concat].
    rewrite !string_app_assoc. reflexivity.
Qed.

(** X4.  The text of the GN arguments is the text of the items one after
    the other, in the order of the dictionary, each as key, [=], value and
    the delimiter, the last item too; the text of two lists of items one
    after the other is the text of the first followed by the text of the
    second. *)
Theorem assemble_gn_args_items delimiter items :
  assemble_gn_args delimiter items
  = String.concat EmptyString
      (map (fun kv => (fst kv ++ "=" ++ snd kv ++ delimiter)%string) items)
  /\ (forall more,
        assemble_gn_args delimiter (items ++ more)
        = (assemble_gn_args delimiter items
           ++ assemble_gn_args delimiter more)%string).
Proof.
  assert (H : forall l, assemble_gn_args delimiter l
    = String.concat EmptyString
        (map (fun kv => (fst kv ++ "=" ++ snd kv ++ delimiter)%string) l)).
  { intros l. unfold assemble_gn_args. rewrite assemble_from. reflexivity. }
  split; [apply H|].
  intros more. unfold assemble_gn_args.
  rewrite fold_left_app, !assemble_from. reflexivity.
Qed.

(** ** More on [set_revision] *)

(** The tests already decided are used in the goal. *)
Ltac use_tests :=
  repeat match goal with
         | E : _ = true |- _ => rewrite E
         | E : _ = false |- _ => rewrite E
         end.

(** The run of the goal is named once, so that it is computed once: the
    goal becomes [run w [] p = (t, r) -> ...], and at the end of the run
    [t] and [r] are replaced by what it gave. *)
Ltac name_run :=
  unfold trace_of, result_of;
  match goal with
  | |- context [run ?w [] ?p] =>
      let X := fresh "X" in
      let HX := fresh "HX" in
      remember (run w [] p) as X eqn:HX;
      let t := fresh "t" in
      let r := fresh "r" in
      destruct X as [t r]; cbn [fst snd]; symmetry in HX; revert HX
  end.

Ltac end_run :=
  let HX := fresh "HX" in
  intros HX; injection HX as <- <-.

(** The trace is split before its last entry. *)
Ltac split_last :=
  match goal with
  | |- exists t0 _, ?t = _ /\ _ =>
      exists (removelast t); eexists; split; [reflexivity|]
  end.

(** X5.  With the shallow flag set, [set_revision] only reads HEAD: it
    makes this one call, asks nothing else of git and changes nothing, and
    returns the output without the white space around it, or raises the
    [CalledProcessError] of the call. *)
Theorem set_revision_shallow_flag cfg w :
  shallow cfg = true ->
  exists r,
    trace_of w (set_revision cfg)
    = [Entry (subprocess sp_check_output ["git"; "rev-parse"; "HEAD"]
                (Some SRC_DIR) None) r]
    /\ result_of w (set_revision cfg)
       = if (returncode r =? 0)%Z then Ok (strip (stdout r))
         else Err (CalledProcessError (returncode r)
                     ["git"; "rev-parse"; "HEAD"]).
Proof.
  intros Hs. unfold trace_of, result_of, set_revision. rewrite Hs.
  exec w; eexists; (split; [reflexivity|]);
    cbn [returncode stdout]; use_tests; reflexivity.
Qed.

(** X6.  What [git describe] leaves decides the update.  When it ends
    with status 0 and its output, without the white space around it, is
    the version of the [config] module, no git command that changes the
    tree is run.  Otherwise an update is started, and a run that returns
    has pulled and has checked out that version. *)
Theorem set_revision_updates_unless_at_tag cfg w e cmd r :
  In e (trace_of w (set_revision cfg)) ->
  child e = Some (sp_run, cmd, r) ->
  let at_tag :=
    ((returncode r =? 0)%Z
     && String.eqb (strip (stdout r)) chromium_version)%bool in
  (at_tag = true ->
     Forall (fun e' => changes_revision e' = false)
       (trace_of w (set_revision cfg)))
  /\ (at_tag = false ->
        Exists (fun e' => changes_revision e' = true)
          (trace_of w (set_revision cfg)))
  /\ (at_tag = false ->
        forall rev, result_of w (set_revision cfg) = Ok rev ->
          Exists (fun e' => runs ["git"; "pull"] e' = true)
            (trace_of w (set_revision cfg))
          /\ Exists
               (fun e' => exists c,
                  e' = Entry (subprocess sp_check_call
                                ["git"; "checkout"; chromium_version]
                                (Some SRC_DIR) None) c
                  /\ returncode c = 0%Z)
               (trace_of w (set_revision cfg))).
Proof.
  revert e cmd r.
  unfold trace_of, result_of, set_revision.
  exec w; intros e' cmd' r' Hin Hc; each_entry Hin; try discriminate Hc;
    cbn in Hc; injection Hc as <- <-; cbv zeta; cbn [returncode stdout];
    use_tests; cbn [negb andb orb];
    (split; [intros H; try discriminate H; repeat constructor|]);
    (split; [intros H; try discriminate H;
             repeat first [ apply Exists_cons_hd; reflexivity
                          | apply Exists_cons_tl ]|]);
    intros H rev Hr; try discriminate H; try discriminate Hr;
    (split;
     [ repeat first [ apply Exists_cons_hd; reflexivity
                    | apply Exists_cons_tl ]
     | repeat first
         [ apply Exists_cons_hd; eexists; split;
           [reflexivity | apply Z.eqb_eq; assumption]
         | apply Exists_cons_tl ] ]).
Qed.

(** X7.  [git clean] and [git reset] are run only with the reset flag;
    [git reset --hard] comes right after a [git clean -fxd] that
    succeeded, and [git checkout], always of the version of the [config]
    module in the source directory, right after a [git pull] that
    succeeded. *)
Theorem set_revision_reset_order cfg w :
  let t := trace_of w (set_revision cfg) in
  (forall e, In e t ->
     (runs ["git"; "clean"] e || runs ["git"; "reset"] e)%bool = true ->
     reset cfg = true)
  /\ RightBefore
       (fun a _ => runs ["git"; "clean"; "-fxd"] a = true /\ failed a = false)
       (fun b => runs ["git"; "reset"; "--hard"] b = true) t
  /\ RightBefore
       (fun a _ => runs ["git"; "pull"] a = true /\ failed a = false)
       (fun b => runs ["git"; "checkout"] b = true) t
  /\ (forall e, In e t -> runs ["git"; "checkout"] e = true ->
        exists c,
          e = Entry (subprocess sp_check_call
                       ["git"; "checkout"; chromium_version]
                       (Some SRC_DIR) None) c).
Proof.
  cbv zeta. unfold trace_of, set_revision.
  exec w.
  all: split;
       [intros e' Hin Hr; each_entry Hin; first [discriminate Hr | assumption]|].
  all: split;
       [right_before_steps
          ltac:(split; [reflexivity
                       | cbn [failed child returncode]; use_tests;
                         reflexivity])|].
  all: split;
       [right_before_steps
          ltac:(split; [reflexivity
                       | cbn [failed child returncode]; use_tests;
                         reflexivity])|].
  all: intros e' Hin Hr; each_entry Hin; try discriminate Hr;
       eexists; reflexivity.
Qed.

(** X8.  A revision that [set_revision] returns is the output, without the
    white space around it, of the reading of HEAD that was its last call
    and ended with status 0.  A [CalledProcessError] that [set_revision]
    ends with is the one of the checked child that ran last.  A
    [RuntimeError] that it ends with is the one of the shallow repository:
    the shallow flag is not set, and the last call was the question whether
    the repository is shallow, answered with [true]. *)
Theorem set_revision_result cfg w :
  let t := trace_of w (set_revision cfg) in
  let r := result_of w (set_revision cfg) in
  (forall rev, r = Ok rev ->
     exists t0 c,
       t = t0 ++ [Entry (subprocess sp_check_output
                           ["git"; "rev-parse"; "HEAD"] (Some SRC_DIR) None) c]
       /\ returncode c = 0%Z /\ rev = strip (stdout c))
  /\ (forall rc cmd, r = Err (CalledProcessError rc cmd) ->
        exists t0 e,
          t = t0 ++ [e]
          /\ child_failure e = Some (CalledProcessError rc cmd))
  /\ (forall msg, r = Err (RuntimeError msg) ->
        msg = "Cannot set revision on a shallow repository!"%string
        /\ shallow cfg = false
        /\ exists t0 e, t = t0 ++ [e] /\ told_shallow e = true).
Proof.
  cbv zeta. name_run. unfold set_revision. exec w; end_run.
  all: split;
       [ intros rev Hr;
         first [ discriminate Hr
               | injection Hr as <-; split_last;
                 (split; [apply Z.eqb_eq; assumption | reflexivity]) ]
       | split;
         [ intros rc cmd Hr;
           first [ discriminate Hr
                 | injection Hr as <- <-; split_last;
                   cbn [child_failure child returncode]; use_tests;
                   reflexivity ]
         | intros msg Hr;
           first [ discriminate Hr
                 | injection Hr as <-;
                   (split; [reflexivity|]);
                   (split; [first [assumption | reflexivity]|]);
                   split_last; unfold told_shallow, asks_shallow;
                   cbn [child returncode stdout]; use_tests; reflexivity ] ] ].
Qed.

Ltac before_with tacA :=
  repeat first
    [ apply Before_nil
    | apply Before_here; [solve [tacA] | discriminate]
    | apply Before_skip; [discriminate|] ].

(** An entry of the explicit trace is found, the first that fits. *)
Ltac in_trace :=
  cbn [In]; repeat first [ left; reflexivity | right ].

Ltac succeeded :=
  split; [reflexivity
         | cbn [failed child returncode]; use_tests; reflexivity].

(** ** More on [sync] *)

(** X9.  [gclient sync] is run with [--nohooks], then, with the reset
    flag, with [--revision src@] and a revision that a successful reading
    of HEAD gave in this run, [--force --upstream --reset], and at the end
    with [--shallow] for the shallow flag and
    [--with_tags --with_branch_heads] without it.  [gclient runhooks]
    comes right after a [gclient sync] that succeeded. *)
Theorem sync_gclient_commands cfg w :
  let t := trace_of w (sync cfg) in
  (forall e api cmd r, In e t -> child e = Some (api, cmd, r) ->
     runs ["gclient"; "sync"] e = true ->
     exists rc out,
       In (Entry (subprocess sp_check_output ["git"; "rev-parse"; "HEAD"]
                    (Some SRC_DIR) None) (Completed rc out)) t
       /\ rc = 0%Z
       /\ cmd = ["gclient"; "sync"; "--nohooks"]
                ++ (if reset cfg
                    then ["--revision"; ("src@" ++ strip out)%string;
                          "--force"; "--upstream"; "--reset"]
                    else [])
                ++ (if shallow cfg then ["--shallow"]
                    else ["--with_tags"; "--with_branch_heads"]))
  /\ RightBefore
       (fun a _ => runs ["gclient"; "sync"] a = true /\ failed a = false)
       (fun b => runs ["gclient"; "runhooks"] b = true) t.
Proof.
  cbv zeta. name_run.
  unfold sync, find_depot_tools, env_with_depot_tools, set_revision.
  exec w; end_run.
  all: split; [|right_before_steps succeeded].
  all: intros e' api cmd r Hin Hc Hr; each_entry Hin; try discriminate Hr;
       cbn in Hc; injection Hc as <- <- <-.
  all: eexists; eexists; (split; [|split]); [ | | reflexivity];
       [in_trace | apply Z.eqb_eq; assumption].
Qed.

(** X10.  [sudo] is run only with the install flag and on a distribution
    whose name is, in lower case, debian or ubuntu: it runs the install
    script of the target OS under [build] in the sources, right after the
    warning about root privilege and after a [gclient runhooks] that
    succeeded. *)
Theorem sync_install_build_deps cfg w :
  let t := trace_of w (sync cfg) in
  (forall e api cmd r, In e t -> child e = Some (api, cmd, r) ->
     runs ["sudo"] e = true ->
     install_build_deps cfg = true
     /\ (exists d, In (Entry distro_linux_distribution d) t
                   /\ (lower d = "debian"%string \/ lower d = "ubuntu"%string))
     /\ cmd = ["sudo";
               os_path_join SRC_DIR
                 ["build";
                  if String.eqb (target_os cfg) "android"
                  then "install-build-deps-android.sh"
                  else "install-build-deps.sh"]])
  /\ RightBefore
       (fun a _ =>
          a = Entry (warnings_warn
                       "Note: installing dependencies requires root privilege!")
                tt)
       (fun b => runs ["sudo"] b = true) t
  /\ Before
       (fun a => runs ["gclient"; "runhooks"] a = true /\ failed a = false)
       (fun b => runs ["sudo"] b = true) t.
Proof.
  cbv zeta. name_run.
  unfold sync, find_depot_tools, env_with_depot_tools, set_revision.
  exec w; end_run.
  all: split; [|split; [right_before_steps reflexivity
                       |before_with succeeded]].
  all: intros e' api cmd r Hin Hc Hr; each_entry Hin; try discriminate Hr;
       cbn in Hc; injection Hc as <- <- <-.
  all: split; [assumption|]; split; [|use_tests; reflexivity].
  all: eexists; split; [in_trace|].
  all: first [ left; apply String.eqb_eq; assumption
             | right; apply String.eqb_eq; assumption ].
Qed.

(** ** The environment of the children *)

Ltac env_facts_leaf :=
  split;
  [ intros environ Hin Hnone; each_entry Hin; try discriminate Hin;
    apply Entry_inj in Hin; subst;
    first [ congruence | split; [reflexivity | repeat constructor] ]
  | intros e' env' Hin He; each_entry Hin; try discriminate He;
    cbn in He; injection He as <-;
    eexists; eexists; eexists;
    (split; [in_trace|]); (split; [in_trace|]);
    (split; [eassumption | reflexivity]) ].

Lemma sync_env_facts cfg w :
  env_facts (trace_of w (sync cfg)) (result_of w (sync cfg)).
Proof.
  unfold env_facts. name_run.
  unfold sync, find_depot_tools, env_with_depot_tools, set_revision.
  exec w; end_run; env_facts_leaf.
Qed.

Lemma build_env_facts cfg w :
  env_facts (trace_of w (build cfg)) (result_of w (build cfg)).
Proof.
  unfold env_facts. name_run.
  unfold build, find_depot_tools, env_with_depot_tools.
  exec w; end_run; env_facts_leaf.
Qed.

(** X11.  When the environment of the script has no [PATH], [sync] and
    [build] end with [KeyError] for [PATH] and have started no child:
    [sync] stops before it reads the revision, [build] before the
    generator. *)
Theorem no_path_no_children cfg w environ :
  Dict.get "PATH" environ = None ->
  (In (Entry os_environ_copy environ) (trace_of w (sync cfg)) ->
     result_of w (sync cfg) = Err (KeyError "PATH")
     /\ Forall (fun e => is_child e = false) (trace_of w (sync cfg)))
  /\ (In (Entry os_environ_copy environ) (trace_of w (build cfg)) ->
        result_of w (build cfg) = Err (KeyError "PATH")
        /\ Forall (fun e => is_child e = false) (trace_of w (build cfg))).
Proof.
  intros Hnone. split; intros Hin.
  - destruct (sync_env_facts cfg w) as [H _]. exact (H environ Hin Hnone).
  - destruct (build_env_facts cfg w) as [H _]. exact (H environ Hin Hnone).
Qed.

(** X12.  A child of [sync] or [build] that is given an environment gets
    the environment of the script with one change: [PATH] starts with the
    depot_tools directory under the working directory, then a colon and
    the [PATH] of the script.  Every other variable is handed on as it
    is. *)
Theorem children_find_depot_tools cfg w e env :
  In e (trace_of w (sync cfg)) \/ In e (trace_of w (build cfg)) ->
  env_of e = Some env ->
  exists d environ path,
    Dict.get "PATH" environ = Some path
    /\ Dict.get "PATH" env
       = Some (os_path_join d ["depot_tools"] ++ ":" ++ path)%string
    /\ (forall k, k <> "PATH"%string -> Dict.get k env = Dict.get k environ)
    /\ Dict.keys env = Dict.keys environ
    /\ (In (Entry os_getcwd d) (trace_of w (sync cfg))
        /\ In (Entry os_environ_copy environ) (trace_of w (sync cfg))
        \/ In (Entry os_getcwd d) (trace_of w (build cfg))
           /\ In (Entry os_environ_copy environ) (trace_of w (build cfg))).
Proof.
  intros Hin He.
  assert (H : exists d environ path,
    Dict.get "PATH" environ = Some path
    /\ env = Dict.set environ "PATH"
               (os_path_join d ["depot_tools"] ++ ":" ++ path)
    /\ (In (Entry os_getcwd d) (trace_of w (sync cfg))
        /\ In (Entry os_environ_copy environ) (trace_of w (sync cfg))
        \/ In (Entry os_getcwd d) (trace_of w (build cfg))
           /\ In (Entry os_environ_copy environ) (trace_of w (build cfg)))).
  { destruct Hin as [Hin|Hin].
    - destruct (sync_env_facts cfg w) as [_ H].
      destruct (H e env Hin He) as [d [environ [path [H1 [H2 [H3 H4]]]]]].
      exists d, environ, path. auto.
    - destruct (build_env_facts cfg w) as [_ H].
      destruct (H e env Hin He) as [d [environ [path [H1 [H2 [H3 H4]]]]]].
      exists d, environ, path. auto. }
  destruct H as [d [environ [path [Hp [-> Hw]]]]].
  exists d, environ, path.
  split; [exact Hp|]. split; [|split; [|split; [|exact Hw]]].
  - rewrite dict_get_set, String.eqb_refl. reflexivity.
  - intros k Hk. rewrite dict_get_set.
    apply String.eqb_neq in Hk. rewrite Hk. reflexivity.
  - apply dict_keys_set_present.
    apply dict_get_In in Hp. unfold Dict.keys.
    change "PATH"%string with (fst ("PATH"%string, path)). now apply in_map.
Qed.

(** ** More on [build] *)

Lemma bootstrap_joined_not_autoninja :
  String.eqb "autoninja"
    (join2 (join2 (join2 (join2 SRC_DIR "tools") "gn") "bootstrap")
       "bootstrap.py")
  = false.
Proof. exact bootstrap_not_autoninja. Qed.

(** The entry does not start autoninja. *)
Ltac not_autoninja :=
  first [ discriminate
        | cbn [runs child words_prefix];
          rewrite bootstrap_joined_not_autoninja; cbn [andb]; discriminate ].

Ltac is_generator :=
  split;
  [ cbn; first [left; reflexivity | right; eexists; reflexivity]
  | cbn [failed child returncode]; use_tests; reflexivity ].

(** X13.  [build] starts autoninja only for linux and android, and only
    after the project generator has succeeded.  It runs in the source
    directory with the job count, the output path and the targets of the
    OS: chrome, chrome_sandbox and chromedriver for linux,
    chrome_modern_public_bundle for android. *)
Theorem build_driver_after_generator cfg w :
  let t := trace_of w (build cfg) in
  Before (fun a => generator cfg a /\ failed a = false)
         (fun b => runs ["autoninja"] b = true) t
  /\ (forall e, In e t -> runs ["autoninja"] e = true ->
        (target_os cfg = "linux"%string \/ target_os cfg = "android"%string)
        /\ exists env c,
             e = Entry (subprocess sp_check_call
                          (["autoninja"; "-j"; str_of_int (num_jobs cfg);
                            "-C"; output_path cfg]
                           ++ (if String.eqb (target_os cfg) "linux"
                               then ["chrome"; "chrome_sandbox"; "chromedriver"]
                               else ["chrome_modern_public_bundle"]))
                          (Some SRC_DIR) (Some env)) c).
Proof.
  cbv zeta. name_run.
  unfold build, find_depot_tools, env_with_depot_tools.
  exec w; end_run.
  all: split;
       [solve [repeat first
          [ apply Before_nil
          | apply Before_here; [solve [is_generator] | not_autoninja]
          | apply Before_skip; [not_autoninja|] ]]|].
  all: intros e' Hin Hr; each_entry Hin;
       try discriminate Hr;
       try (cbn [runs child words_prefix] in Hr;
            rewrite bootstrap_joined_not_autoninja in Hr; cbn [andb] in Hr;
            discriminate Hr).
  all: split;
       [first [ left; apply String.eqb_eq; assumption
              | right; apply String.eqb_eq; assumption ]
       | eexists; eexists; use_tests; reflexivity ].
Qed.

(** X14.  The generator gets the GN arguments of the flags that were read.
    For a direct download it is the bootstrap script, with the arguments
    in one word, separated by spaces, and [build] writes no file; otherwise
    it is [gn gen] on the output path, in the source directory, right
    after the arguments were written to [args.gn] in the output
    directory. *)
Theorem build_generator_mode cfg w :
  let t := trace_of w (build cfg) in
  (forall e api cmd r, In e t -> child e = Some (api, cmd, r) ->
     generator cfg e ->
     exists lines,
       In (Entry (file_readlines
                    (os_path_join "ungoogled-chromium" ["flags.gn"]))
            (Some lines)) t
       /\ if direct_download cfg
          then cmd = [os_path_join SRC_DIR
                        ["tools"; "gn"; "bootstrap"; "bootstrap.py"];
                      ("--gn-gen-args='"
                       ++ assemble_gn_args " "
                            (build_gn_args cfg (parse_gn_flags lines))
                       ++ "'")%string]
               /\ cwd_of e = None /\ env_of e = None
          else cmd = ["gn"; "gen"; output_path cfg; "--fail-on-unused-args"]
               /\ cwd_of e = Some SRC_DIR)
  /\ (direct_download cfg = true ->
        Forall (fun e => writes_file e = false) t)
  /\ (direct_download cfg = false ->
        RightBefore
          (fun a _ =>
             exists lines,
               a = Entry (file_write
                            (os_path_join (output_src_path cfg) ["args.gn"])
                            (assemble_gn_args newline
                               (build_gn_args cfg (parse_gn_flags lines))))
                     tt
               /\ In (Entry (file_readlines
                               (os_path_join "ungoogled-chromium" ["flags.gn"]))
                        (Some lines)) t)
          (fun b => runs ["gn"; "gen"] b = true) t).
Proof.
  cbv zeta. name_run.
  unfold build, find_depot_tools, env_with_depot_tools.
  exec w; end_run.
  all: split;
       [ intros e' api cmd r Hin Hc Hg; each_entry Hin; try contradiction;
         cbn in Hc; injection Hc as <- <- <-;
         try (destruct Hg as [Hg|[? Hg]]; discriminate Hg);
         eexists; (split; [in_trace|]); use_tests;
         repeat split; reflexivity
       | split; intros Hd;
         first [ rewrite_tests Hd; discriminate Hd
               | solve [repeat constructor]
               | right_before_steps
                   ltac:(eexists; split; [reflexivity | in_trace]) ] ].
Qed.

(** X15.  [build] always creates the output directory under the sources,
    before it starts a child or writes a file.  It removes something only
    at that very path, and only when the path was found not to be a
    directory. *)
Theorem build_prepares_output_dir cfg w :
  let t := trace_of w (build cfg) in
  In (Entry (os_makedirs (output_src_path cfg)) tt) t
  /\ Before (fun a => a = Entry (os_makedirs (output_src_path cfg)) tt)
            (fun b => (is_child b || writes_file b)%bool = true) t
  /\ RightBefore
       (fun a b => a = Entry (os_path_isdir (output_src_path cfg)) false
                   /\ b = Entry (os_remove (output_src_path cfg)) tt)
       (fun b => exists p, b = Entry (os_remove p) tt) t.
Proof.
  cbv zeta. name_run.
  unfold build, find_depot_tools, env_with_depot_tools.
  exec w; end_run.
  all: split; [in_trace|]; split; [before_steps|].
  all: first
         [ apply RightBefore_nil
         | apply RightBefore_start;
           [ intros [p Hp]; discriminate Hp
           | repeat first
               [ apply Follows_nil
               | apply Follows_cons;
                 [ intros [p Hp];
                   first [ discriminate Hp
                         | split; reflexivity ] | ] ] ] ].
Qed.

(** ** More on [clean], [init] and [prepare] *)

(** X16.  When the expanded path of the output directory is the expanded
    default, [clean] does not ask: [rm -rf] on the directory follows at
    once.  In every run of [clean] the only call that can change a file is
    this [rm -rf] on the output directory; it is the last call, and its
    exit status decides between a normal return and
    [CalledProcessError]. *)
Theorem clean_removes_only_output_dir cfg w :
  let t := trace_of w (clean cfg) in
  let r := result_of w (clean cfg) in
  let out := output_base_dir cfg in
  let rm := subprocess sp_check_call ["rm"; "-rf"; out] None None in
  (forall a t',
     t = Entry (os_path_exists out) true
         :: Entry (shell_expand_abs_path out) a
         :: Entry (shell_expand_abs_path OUTPUT_BASE_DIR) a :: t' ->
     exists c, t' = [Entry rm c])
  /\ (forall e, In e t -> changes_files e = true ->
        exists c,
          e = Entry rm c /\ last t e = e
          /\ r = if (returncode c =? 0)%Z then Ok tt
                 else Err (CalledProcessError (returncode c)
                             ["rm"; "-rf"; out])).
Proof.
  cbv zeta. unfold trace_of, result_of, clean.
  exec w.
  all: split;
       [ intros a t' H; head_eq H He1;
         try (apply Entry_inj in He1; discriminate He1);
         head_eq H He2; head_eq H He3;
         apply Entry_inj in He2; apply Entry_inj in He3; subst;
         first [ rewrite String.eqb_refl in *; discriminate
               | eexists; reflexivity ]
       | intros e' Hin Hc; each_entry Hin; try discriminate Hc;
         eexists; (split; [reflexivity|]); (split; [reflexivity|]);
         cbn [returncode]; use_tests; reflexivity ].
Qed.

Ltac stops_at_error :=
  let e := fresh "e" in
  let x := fresh "x" in
  let Hin := fresh "Hin" in
  let Hr := fresh "Hr" in
  intros e x Hin Hr; each_entry Hin; cbn in Hr; try discriminate Hr;
  injection Hr as <-;
  (split; [reflexivity|]); (split; [reflexivity | repeat constructor]).

(** X17.  When [git_maybe_checkout] raises in [init] or in [prepare], its
    call is the last one of the run, the exception it raised is the result,
    and build.py has started no child of its own: no call of [subprocess]
    is in the run. *)
Theorem checkout_failure_stops cfg w :
  let stops (t : list entry) (r : result unit) :=
    forall e x, In e t -> raised e = Some x ->
      last t e = e /\ r = Err x
      /\ Forall (fun a => is_child a = false) t in
  stops (trace_of w (init cfg)) (result_of w (init cfg))
  /\ stops (trace_of w (prepare cfg)) (result_of w (prepare cfg)).
Proof.
  cbv zeta. split.
  - name_run. unfold init. exec w; end_run. all: stops_at_error.
  - name_run. unfold prepare. exec w; end_run. all: stops_at_error.
Qed.

Ltac checked_out :=
  split; [reflexivity | reflexivity].

(** X18.  [prepare] checks out ungoogled-chromium at its version, with
    reset, before any child; only for android it also checks out
    ungoogled-chromium-android at its version, with reset, and applies the
    fix of the main repository with [patch], and then the checkout comes
    before every child and the patch has succeeded before the first
    script. *)
Theorem prepare_android_steps cfg w :
  let t := trace_of w (prepare cfg) in
  let android := String.eqb (target_os cfg) "android" in
  (forall e co, In e t -> checkout_of e = Some co ->
     co = ("https://github.com/Eloston/ungoogled-chromium.git",
           "ungoogled-chromium", Some ungoogled_chromium_version, Some true)
     \/ (android = true
         /\ co = ("https://github.com/ungoogled-software/ungoogled-chromium-android.git",
                  "ungoogled-chromium-android",
                  Some ungoogled_chromium_android_version, Some true)))
  /\ (forall e, In e t -> runs ["patch"] e = true ->
        android = true
        /\ exists c,
             e = Entry (subprocess sp_check_call
                          ["patch"; "-p1"; "--ignore-whitespace"; "-i";
                           os_path_join "ungoogled-chromium-android"
                             ["patches"; "Other";
                              "ungoogled-main-repo-fix.patch"];
                           "--no-backup-if-mismatch"]
                          None None) c)
  /\ Before (fun a => checks_out "ungoogled-chromium" a = true
                      /\ raised a = None)
            (fun b => is_child b = true) t
  /\ (android = true ->
        Before (fun a => checks_out "ungoogled-chromium-android" a = true
                         /\ raised a = None)
               (fun b => is_child b = true) t
        /\ Before (fun a => runs ["patch"] a = true /\ failed a = false)
                  (fun b => is_script b = true) t).
Proof.
  cbv zeta.
  destruct (String.eqb (target_os cfg) "android") eqn:Hos.
  all: name_run; unfold prepare; rewrite Hos; exec w; end_run.
  all: split;
       [ intros e' co Hin Hc; each_entry Hin; cbn in Hc; try discriminate Hc;
         injection Hc as <-;
         first [ left; reflexivity | right; split; reflexivity ] |].
  all: split;
       [ intros e' Hin Hr; each_entry Hin; try discriminate Hr;
         (split; [reflexivity | eexists; reflexivity]) |].
  all: split; [solve [before_with checked_out]|].
  all: intros Ha; try discriminate Ha.
  all: split; [solve [before_with checked_out] | solve [before_with succeeded]].
Qed.

(** ** [list_submodules] *)

Lemma findall_only_pattern pat b s :
  Forall (eq pat) (re_findall_line_start pat b s).
Proof.
  revert b. induction s as [|c s IH]; intros b; cbn [re_findall_line_start].
  - constructor.
  - apply Forall_app. split; [|apply IH].
    destruct (b && String.prefix pat (String c s))%bool; repeat constructor.
Qed.

Lemma names_of_modes l :
  Forall (eq "160000"%string) l ->
  map (fun submodule => last (re_split_spaces (strip submodule)) EmptyString) l
  = repeat "160000"%string (length l).
Proof.
  induction 1 as [|x l <- _ IH]; [reflexivity|].
  cbn [map repeat length]. rewrite IH. reflexivity.
Qed.

(** X19.  [list_submodules] asks git for the staged files once.  When git
    fails the result is its [CalledProcessError]; otherwise the list
    returned has one entry for every line of the stripped output that
    starts with the mode [160000], and every entry is the text [160000]
    itself, never the path of a submodule. *)
Theorem list_submodules_gives_modes w :
  exists c rest,
    trace_of w list_submodules
    = Entry (subprocess sp_check_output ["git"; "ls-files"; "--stage"]
               None None) c :: rest
    /\ Forall (fun e => changes_files e = false) rest
    /\ result_of w list_submodules
       = if (returncode c =? 0)%Z
         then Ok (repeat "160000"%string
                    (length (re_findall_line_start "160000" true
                               (strip (stdout c)))))
         else Err (CalledProcessError (returncode c)
                     ["git"; "ls-files"; "--stage"]).
Proof.
  unfold trace_of, result_of, list_submodules.
  exec w.
  all: eexists; eexists; split; [reflexivity|];
       split; [repeat constructor|];
       cbn [returncode stdout]; use_tests;
       rewrite ?(names_of_modes (findall_only_pattern _ _ _)); reflexivity.
Qed.

(** ** The children whose exit status the script reads itself *)
















End Script.

(** * Sample runs *)

(** ** The text operations on sample texts *)

Example strip_git_output :
  Text.strip ("  true" ++ Text.newline) = "true".
Proof. reflexivity. Qed.

Example strip_keeps_inner_space : Text.strip " a b " = "a b".
Proof. reflexivity. Qed.

Example lower_distro : Text.lower "Ubuntu" = "ubuntu".
Proof. reflexivity. Qed.

Example join_relative :
  Text.os_path_join "src" ["out"; "Release_linux_x64"]
  = "src/out/Release_linux_x64".
Proof. reflexivity. Qed.

Example join_absolute_part :
  Text.os_path_join "src" ["/tmp/out"; "Release_linux_x64"]
  = "/tmp/out/Release_linux_x64".
Proof. reflexivity. Qed.

Example join_after_separator : Text.os_path_join "src/" ["build"] = "src/build".
Proof. reflexivity. Qed.

Example replace_every_occurrence :
  Text.replace "a@@b@@" "@@" "-" = "a-b-".
Proof. reflexivity. Qed.

Example str_of_jobs : Text.str_of_int 8 = "8".
Proof. reflexivity. Qed.

Example update_keeps_position :
  Dict.update [("a", "1"); ("b", "2")] [("a", "3"); ("c", "4")]
  = [("a", "3"); ("b", "2"); ("c", "4")].
Proof. reflexivity. Qed.

(** ** The commands in sample worlds *)

Example gclient_text_linux :
  gclient_text Sample.GCLIENT_CONFIG Sample.linux
  = "solutions = [{'name': 'src'}]; target_os = ['linux']".
Proof. reflexivity. Qed.

(** The default output directory is removed without a question. *)
Example clean_default_directory :
  run (world_of Sample.all_well) [] (clean Sample.OUTPUT_BASE_DIR Sample.linux)
  = ([Entry (os_path_exists "out") true;
      Entry (shell_expand_abs_path "out") "/work/out";
      Entry (shell_expand_abs_path "out") "/work/out";
      Entry (subprocess sp_check_call ["rm"; "-rf"; "out"] None None)
        (Completed 0 EmptyString)],
     Ok tt).
Proof. reflexivity. Qed.

(** Another directory is kept when the user answers [n]. *)
Example clean_declined :
  trace_of (world_of (Sample.with_reply Sample.all_well "n"))
    (clean Sample.OUTPUT_BASE_DIR Sample.elsewhere)
  = [Entry (os_path_exists "/tmp/chromium-out") true;
     Entry (shell_expand_abs_path "/tmp/chromium-out") "/tmp/chromium-out";
     Entry (shell_expand_abs_path "out") "/work/out";
     Entry (os_path_abspath "/tmp/chromium-out") "/tmp/chromium-out";
     Entry (input
              "WARNING: you are about to remove an output directory which is different from the default location. Are you sure you want ot remove /tmp/chromium-out? [y/n]: ")
       (Some "n")].
Proof. reflexivity. Qed.

(** A shallow [init] on an empty disk. *)
Example init_shallow_children :
  map child
    (trace_of (world_of (Sample.on_empty_disk Sample.all_well))
       (init Sample.SRC_DIR Sample.chromium_version
          {| target_os := "linux"; target_cpu := "x64"; debug := false;
             output_base_dir := "out"; cc_wrapper := None; shallow := true;
             direct_download := false; reset := false;
             install_build_deps := false; gn_args := []; num_jobs := 8 |}))
  = [None; None; None; None; None;
     Some (sp_check_call,
           ["git"; "clone"; "--depth"; "1"; "--no-tags";
            "https://chromium.googlesource.com/chromium/src.git";
            "-b"; "91.0.4472.164"],
           Completed 0 EmptyString)].
Proof. reflexivity. Qed.

(** The scripts of [prepare] for android, all succeeding. *)
Example prepare_android_scripts :
  scripts
    (trace_of (world_of Sample.all_well)
       (prepare Sample.SRC_DIR Sample.ungoogled_chromium_version
          Sample.ungoogled_chromium_android_version Sample.android))
  = [prune_script; patches_script; domsub_script;
     prune_script; patches_script; domsub_script].
Proof. reflexivity. Qed.

(** The list files that the scripts of [prepare] are given. *)
Example prepare_list_files :
  map list_file_of
    (filter is_script
       (trace_of (world_of Sample.all_well)
          (prepare Sample.SRC_DIR Sample.ungoogled_chromium_version
             Sample.ungoogled_chromium_android_version Sample.linux)))
  = [Some "ungoogled-chromium/pruning.list"; None;
     Some "ungoogled-chromium/domain_substitution.list"].
Proof. reflexivity. Qed.

(** The flags file of a release build for linux with two overrides. *)
Example build_args_gn_linux :
  assemble_gn_args Text.newline
    (build_gn_args Sample.linux
       (Sample.parse_gn_flags ["enable_reporting=false"; "is_debug=false"]))
  = String.concat Text.newline
      ["enable_reporting=false"; "is_debug=true";
       "is_component_build=false"; "is_unsafe_developer_build=false";
       "proprietary_codecs=true";
       ("ffmpeg_branding=" ++ dquote ++ "Chrome" ++ dquote)%string;
       "use_gnome_keyring=false"; "exclude_unwind_tables=false";
       ("target_os=" ++ dquote ++ "linux" ++ dquote)%string;
       ("target_cpu=" ++ dquote ++ "x64" ++ dquote)%string;
       "is_official_build=true"; "symbol_level=0"; "blink_symbol_level=0";
       "use_vaapi=true"; EmptyString].
Proof. reflexivity. Qed.

(** [build] on an empty disk: the output directory is created, and [open]
    does not find the flags file. *)
Example build_without_flags_file :
  run (world_of (Sample.on_empty_disk Sample.all_well)) []
    (build Sample.SRC_DIR Sample.parse_gn_flags Sample.linux)
  = ([Entry (os_path_exists "src/out/Release_linux_x64") false;
      Entry (os_makedirs "src/out/Release_linux_x64") tt;
      Entry (file_readlines "ungoogled-chromium/flags.gn") None],
     Err (FileNotFoundError
            "[Errno 2] No such file or directory: 'ungoogled-chromium/flags.gn'")).
Proof. reflexivity. Qed.

(** ** Runs that refute C1, C2 and C5 as first stated, and runs the theorems apply to *)



(** C2, where it fails.  The [git clone] of [init] ends with exit status
    128, the first and only failure: the exception carries 128, and the
    script ends with exit status 1. *)
Lemma exit_status_is_not_the_childs :
  first_failure
    (trace_of (world_of Sample.git_fails)
       (main Sample.OUTPUT_BASE_DIR Sample.SRC_DIR Sample.GCLIENT_CONFIG
          Sample.chromium_version Sample.ungoogled_chromium_version
          Sample.ungoogled_chromium_android_version Sample.parse_gn_flags
          "init" Sample.linux))
  = Some 128%Z
  /\ result_of (world_of Sample.git_fails)
       (main Sample.OUTPUT_BASE_DIR Sample.SRC_DIR Sample.GCLIENT_CONFIG
          Sample.chromium_version Sample.ungoogled_chromium_version
          Sample.ungoogled_chromium_android_version Sample.parse_gn_flags
          "init" Sample.linux)
     = Err (CalledProcessError 128
              ["git"; "clone";
               "https://chromium.googlesource.com/chromium/src.git";
               "-b"; Sample.chromium_version])
  /\ exit_status
       (result_of (world_of Sample.git_fails)
          (main Sample.OUTPUT_BASE_DIR Sample.SRC_DIR Sample.GCLIENT_CONFIG
             Sample.chromium_version Sample.ungoogled_chromium_version
             Sample.ungoogled_chromium_android_version Sample.parse_gn_flags
             "init" Sample.linux))
     <> 128%Z.
Proof.
  split; [vm_compute; reflexivity|].
  split; [vm_compute; reflexivity|].
  vm_compute. discriminate.
Qed.


(** C2 (as amended), at the failing [git clone] of [init]. *)
Lemma exit_status_on_child_failure_witness :
  result_of (world_of Sample.git_fails)
    (main Sample.OUTPUT_BASE_DIR Sample.SRC_DIR Sample.GCLIENT_CONFIG
       Sample.chromium_version Sample.ungoogled_chromium_version
       Sample.ungoogled_chromium_android_version Sample.parse_gn_flags
       "init" Sample.linux)
  = Err (CalledProcessError 128
           ["git"; "clone";
            "https://chromium.googlesource.com/chromium/src.git";
            "-b"; Sample.chromium_version])
  /\ exit_status
       (result_of (world_of Sample.git_fails)
          (main Sample.OUTPUT_BASE_DIR Sample.SRC_DIR Sample.GCLIENT_CONFIG
             Sample.chromium_version Sample.ungoogled_chromium_version
             Sample.ungoogled_chromium_android_version Sample.parse_gn_flags
             "init" Sample.linux))
     = 1%Z.
Proof.
  pose (t := trace_of (world_of Sample.git_fails)
    (main Sample.OUTPUT_BASE_DIR Sample.SRC_DIR Sample.GCLIENT_CONFIG
       Sample.chromium_version Sample.ungoogled_chromium_version
       Sample.ungoogled_chromium_android_version Sample.parse_gn_flags
       "init" Sample.linux)).
  destruct (@exit_status_on_child_failure
              Sample.OUTPUT_BASE_DIR Sample.SRC_DIR Sample.GCLIENT_CONFIG
              Sample.chromium_version Sample.ungoogled_chromium_version
              Sample.ungoogled_chromium_android_version Sample.parse_gn_flags
              "init" Sample.linux (world_of Sample.git_fails)
              (removelast t) (last t (Entry os_getcwd EmptyString)) []
              (CalledProcessError 128
                 ["git"; "clone";
                  "https://chromium.googlesource.com/chromium/src.git";
                  "-b"; Sample.chromium_version]))
    as [Hr [_ [_ Hx]]].
  - vm_compute. reflexivity.
  - vm_compute. reflexivity.
  - split; assumption.
Defined.

(** C3, for the overrides [is_debug=true; use_vaapi=true] of a release
    build: the user's [is_debug] wins over the release flags. *)
Lemma build_gn_args_layers_witness :
  Dict.wf (gn_args Sample.linux)
  /\ Dict.get "is_debug"
       (build_gn_args Sample.linux
          (Sample.parse_gn_flags ["is_debug=false"; "use_sysroot=false"]))
     = Some "true".
Proof.
  assert (Hwf : Dict.wf (gn_args Sample.linux)).
  { unfold Dict.wf. simpl.
    repeat (constructor; [simpl; intuition discriminate|]). constructor. }
  split; [exact Hwf|].
  destruct (@build_gn_args_layers Sample.SRC_DIR Sample.parse_gn_flags
              Sample.linux (world_of Sample.all_well) Hwf) as [H _].
  destruct (H (Sample.parse_gn_flags ["is_debug=false"; "use_sysroot=false"]))
    as [_ [_ Hk]].
  apply Hk. reflexivity.
Defined.

(** C4, in a shallow clone. *)
Lemma set_revision_checks_shallowness_witness :
  shallow Sample.linux = false
  /\ result_of (world_of Sample.shallow_repository)
       (set_revision Sample.SRC_DIR Sample.chromium_version Sample.linux)
     = Err (RuntimeError "Cannot set revision on a shallow repository!")
  /\ Forall (fun e => changes_revision e = false)
       (trace_of (world_of Sample.shallow_repository)
          (set_revision Sample.SRC_DIR Sample.chromium_version Sample.linux)).
Proof.
  split; [reflexivity|].
  destruct (@set_revision_checks_shallowness Sample.SRC_DIR
              Sample.chromium_version Sample.linux
              (world_of Sample.shallow_repository) eq_refl) as [_ [_ H]].
  apply (H (nth 1 (trace_of (world_of Sample.shallow_repository)
                     (set_revision Sample.SRC_DIR Sample.chromium_version
                        Sample.linux))
              (Entry os_getcwd EmptyString))).
  - vm_compute. right. left. reflexivity.
  - vm_compute. reflexivity.
Defined.


(** C8, for another directory and the reply [n]. *)
Lemma clean_asks_before_removing_witness :
  exists ex t',
    trace_of (world_of (Sample.with_reply Sample.all_well "n"))
      (clean Sample.OUTPUT_BASE_DIR Sample.elsewhere)
    = Entry (os_path_exists "/tmp/chromium-out") ex :: t'.
Proof.
  destruct (@clean_asks_before_removing Sample.OUTPUT_BASE_DIR
              Sample.elsewhere
              (world_of (Sample.with_reply Sample.all_well "n")))
    as [ex [t' [Ht _]]].
  exists ex, t'. exact Ht.
Defined.


(** C9, for a build for Windows in a world where all is well: the
    generator has run, and the build ends with the [AttributeError]. *)
Lemma build_rejects_other_os_witness :
  target_os Sample.windows <> "linux"%string
  /\ target_os Sample.windows <> "android"%string
  /\ result_of (world_of Sample.all_well)
       (build Sample.SRC_DIR Sample.parse_gn_flags Sample.windows)
     = Err (AttributeError "Target OS not supported").
Proof.
  assert (Hl : target_os Sample.windows <> "linux"%string)
    by (simpl; discriminate).
  assert (Ha : target_os Sample.windows <> "android"%string)
    by (simpl; discriminate).
  split; [exact Hl|]. split; [exact Ha|].
  destruct (@build_rejects_other_os Sample.SRC_DIR Sample.parse_gn_flags
              Sample.windows (world_of Sample.all_well) Hl Ha)
    as [_ [_ [_ H]]].
  apply (H (nth 9 (trace_of (world_of Sample.all_well)
                     (build Sample.SRC_DIR Sample.parse_gn_flags
                        Sample.windows))
              (Entry os_getcwd EmptyString))).
  - vm_compute. do 9 right. left. reflexivity.
  - vm_compute. left. reflexivity.
  - vm_compute. reflexivity.
Defined.

(** * The further properties on sample runs *)

Example findall_on_git_stage_output :
  Text.re_findall_line_start "160000" true
    ("160000 4f1c2d9 0 third_party/a" ++ Text.newline
     ++ "100644 0a1b2c3 0 160000" ++ Text.newline
     ++ "160000 77aa88b 0 third_party/b")
  = ["160000"; "160000"].
Proof. reflexivity. Qed.

Example split_on_runs_of_spaces :
  Text.re_split_spaces "160000 4f1c2d9  0 a" = ["160000"; "4f1c2d9"; "0"; "a"]
  /\ Text.re_split_spaces " a " = [EmptyString; "a"; EmptyString]
  /\ Text.re_split_spaces EmptyString = [EmptyString].
Proof. repeat split; reflexivity. Qed.

(** X1, for a flags file of two lines. *)
Lemma build_gn_args_wf_witness :
  Dict.wf (Sample.parse_gn_flags ["is_debug=false"; "use_sysroot=false"])
  /\ Dict.wf
       (build_gn_args Sample.linux
          (Sample.parse_gn_flags ["is_debug=false"; "use_sysroot=false"])).
Proof.
  assert (Hwf : Dict.wf (Sample.parse_gn_flags
                           ["is_debug=false"; "use_sysroot=false"])).
  { unfold Dict.wf. vm_compute.
    repeat (constructor; [simpl; intuition discriminate|]). constructor. }
  split; [exact Hwf|].
  exact (@build_gn_args_wf Sample.linux
           (Sample.parse_gn_flags ["is_debug=false"; "use_sysroot=false"])
           Hwf).
Defined.

(** X3, for a flags file that asks for an official build. *)
Lemma hard_coded_flags_beat_file_witness :
  Dict.get "is_official_build" (gn_args Sample.windows) = None
  /\ In "is_official_build"
       (Dict.keys (common_flags Sample.windows)
        ++ Dict.keys (debug_flags Sample.windows))%list
  /\ Dict.get "is_official_build"
       (build_gn_args Sample.windows
          (Sample.parse_gn_flags ["is_official_build=false"]))
     = Dict.get "is_official_build" (build_gn_args Sample.windows []).
Proof.
  assert (Hin : In "is_official_build"
                  (Dict.keys (common_flags Sample.windows)
                   ++ Dict.keys (debug_flags Sample.windows))%list).
  { vm_compute. repeat first [left; reflexivity | right]. }
  split; [reflexivity|]. split; [exact Hin|].
  destruct (@hard_coded_flags_beat_file Sample.windows
              (Sample.parse_gn_flags ["is_official_build=false"])
              "is_official_build" eq_refl Hin) as [H _].
  exact H.
Defined.

(** X5, in a shallow clone with the shallow flag. *)
Lemma set_revision_shallow_flag_witness :
  shallow Sample.shallow_linux = true
  /\ length (trace_of (world_of Sample.shallow_repository)
               (set_revision Sample.SRC_DIR Sample.chromium_version
                  Sample.shallow_linux))
     = 1.
Proof.
  split; [reflexivity|].
  destruct (@set_revision_shallow_flag Sample.SRC_DIR
              Sample.chromium_version Sample.shallow_linux
              (world_of Sample.shallow_repository) eq_refl) as [r [Ht _]].
  rewrite Ht. reflexivity.
Defined.

(** X6, where HEAD is at no tag: [git describe] is the third call. *)
Lemma set_revision_updates_unless_at_tag_witness :
  In (nth 2 (trace_of (world_of Sample.all_well)
               (set_revision Sample.SRC_DIR Sample.chromium_version
                  Sample.linux))
        (Entry os_getcwd EmptyString))
     (trace_of (world_of Sample.all_well)
        (set_revision Sample.SRC_DIR Sample.chromium_version Sample.linux))
  /\ Exists (fun e => changes_revision e = true)
       (trace_of (world_of Sample.all_well)
          (set_revision Sample.SRC_DIR Sample.chromium_version
             Sample.linux)).
Proof.
  assert (Hin : In (nth 2 (trace_of (world_of Sample.all_well)
                             (set_revision Sample.SRC_DIR
                                Sample.chromium_version Sample.linux))
                      (Entry os_getcwd EmptyString))
                  (trace_of (world_of Sample.all_well)
                     (set_revision Sample.SRC_DIR Sample.chromium_version
                        Sample.linux))).
  { vm_compute. right. right. left. reflexivity. }
  split; [exact Hin|].
  destruct (@set_revision_updates_unless_at_tag Sample.SRC_DIR
              Sample.chromium_version Sample.linux
              (world_of Sample.all_well) _
              ["git"; "describe"; "--tags"; "--exact-match"; EmptyString]
              (Completed 0 EmptyString) Hin eq_refl) as [_ [H _]].
  apply H. reflexivity.
Defined.

(** X11, where [PATH] is not set. *)
Lemma no_path_no_children_witness :
  Dict.get "PATH" [("HOME", "/root")] = None
  /\ result_of (world_of (Sample.without_path Sample.all_well))
       (sync Sample.SRC_DIR Sample.GCLIENT_CONFIG Sample.chromium_version
          Sample.linux)
     = Err (KeyError "PATH").
Proof.
  split; [reflexivity|].
  destruct (@no_path_no_children Sample.SRC_DIR Sample.GCLIENT_CONFIG
              Sample.chromium_version Sample.parse_gn_flags Sample.linux
              (world_of (Sample.without_path Sample.all_well))
              [("HOME", "/root")] eq_refl) as [Hs _].
  apply Hs. vm_compute. right. right. right. left. reflexivity.
Defined.

(** X12, at the last child of [sync], which is [gclient runhooks]. *)
Lemma children_find_depot_tools_witness :
  env_of (last (trace_of (world_of Sample.all_well)
                  (sync Sample.SRC_DIR Sample.GCLIENT_CONFIG
                     Sample.chromium_version Sample.linux))
            (Entry os_getcwd EmptyString))
  = Some [("HOME", "/root"); ("PATH", "/work/depot_tools:/usr/bin:/bin")]
  /\ exists d environ path,
       Dict.get "PATH" environ = Some path
       /\ Dict.get "PATH"
            [("HOME", "/root"); ("PATH", "/work/depot_tools:/usr/bin:/bin")]
          = Some (Text.os_path_join d ["depot_tools"] ++ ":" ++ path)%string.
Proof.
  assert (He : env_of (last (trace_of (world_of Sample.all_well)
                               (sync Sample.SRC_DIR Sample.GCLIENT_CONFIG
                                  Sample.chromium_version Sample.linux))
                         (Entry os_getcwd EmptyString))
               = Some [("HOME", "/root");
                       ("PATH", "/work/depot_tools:/usr/bin:/bin")])
    by (vm_compute; reflexivity).
  split; [exact He|].
  destruct (@children_find_depot_tools Sample.SRC_DIR Sample.GCLIENT_CONFIG
              Sample.chromium_version Sample.parse_gn_flags Sample.linux
              (world_of Sample.all_well)
              (last (trace_of (world_of Sample.all_well)
                       (sync Sample.SRC_DIR Sample.GCLIENT_CONFIG
                          Sample.chromium_version Sample.linux))
                 (Entry os_getcwd EmptyString))
              [("HOME", "/root"); ("PATH", "/work/depot_tools:/usr/bin:/bin")])
    as [d [environ [path [H1 [H2 _]]]]].
  - left. vm_compute. repeat first [left; reflexivity | right].
  - exact He.
  - exists d, environ, path. split; assumption.
Defined.
